(** * Razorpay payment webhook: a shallow embedding of the two handlers

    The repository holds two versions of the Vercel function that receives
    Razorpay's [payment.captured] notification and stores one registration
    row in Supabase:

    - [src/api/payment-webhook.ts], the handler the specification describes
      (module [PaymentWebhook] below);
    - an earlier, shorter variant of the same function
      (module [Variant] below).

    Both are embedded as Rocq functions over a model of the JavaScript
    values they inspect.  The function is [async] with one [await]; since
    nothing else runs between request and response it is modelled as a
    function from the request, the process environment and the store's
    answer to the response and the list of store calls it made. *)

From Stdlib Require Import ZArith QArith Qround.
From Stdlib Require Import Bool List String Ascii Lia.
Import ListNotations.

Local Open Scope string_scope.
Local Open Scope Z_scope.

(** ** JavaScript values *)

Module Js.

(** Numbers.  A finite number is given by the rational it denotes (every
    binary64 value is one); the quotient of a division is rounded to
    binary64, to nearest with ties to even, as IEEE 754 prescribes.  The
    two zeros are not told apart. *)
Inductive number : Type :=
| Fin (q : Q)
| NaN
| PosInfinity
| NegInfinity.

(** The values [JSON.parse] and property access can produce. *)
#[warnings="-register-all"]
Inductive value : Type :=
| Undefined
| Null
| Bool (b : bool)
| Num (n : number)
| Str (s : string)
| Arr (elems : list value)
| Obj (props : list (string * value)).

(** What evaluation of an expression can do besides yielding a value:
    throw an [Error] instance (a [TypeError] of the engine, in V8's wording,
    or an [Error] of a library) or throw any other value. *)
Inductive exn : Type :=
| JsError (message : string)
| Thrown (v : value).

Inductive completion (A : Type) : Type :=
| Normal (a : A)
| Throw (e : exn).
Arguments Normal {A} a.
Arguments Throw {A} e.

(** Facilities of the host and of the libraries the source calls, whose
    results the model takes as given: the text of a number in a template
    literal, the number a string converts to, the clock behind
    [new Date().toISOString()], and what supabase-js's [createClient]
    throws, if anything, for a URL that is not empty (its check of the
    URL's form depends on the library's version). *)
Record host : Type := {
  Number_toString : number -> string;
  StringToNumber : string -> number;
  Date_toISOString : string;
  supabaseUrl_error : string -> option exn
}.

Definition is_zero (q : Q) : bool := (Qnum q =? 0)%Z.

(** ToBoolean: the truthiness tested by [!x], [!!x] and [if (x)]. *)
Definition truthy (v : value) : bool :=
  match v with
  | Undefined | Null => false
  | Bool b => b
  | Num (Fin q) => negb (is_zero q)
  | Num NaN => false
  | Num _ => true
  | Str s => negb (String.eqb s "")
  | Arr _ | Obj _ => true
  end.

Definition typeof (v : value) : string :=
  match v with
  | Undefined => "undefined"
  | Null => "object"
  | Bool _ => "boolean"
  | Num _ => "number"
  | Str _ => "string"
  | Arr _ | Obj _ => "object"
  end.

Definition nullish (v : value) : bool :=
  match v with
  | Undefined | Null => true
  | _ => false
  end.

Fixpoint lookup (k : string) (props : list (string * value)) : value :=
  match props with
  | [] => Undefined
  | (k', v) :: rest => if String.eqb k' k then v else lookup k rest
  end.

(** Property read on a value that is neither [undefined] nor [null].  The
    handlers read only the names [event], [payment], [id], [email],
    [amount], [notes] and [event_id], none of which is defined on a
    built-in prototype, so a primitive or an array yields [undefined]. *)
Definition property (v : value) (k : string) : value :=
  match v with
  | Obj props => lookup k props
  | _ => Undefined
  end.

(** [v.k] *)
Definition member (v : value) (k : string) : completion value :=
  match v with
  | Undefined =>
      Throw (JsError
        ("Cannot read properties of undefined (reading '" ++ k ++ "')"))
  | Null =>
      Throw (JsError
        ("Cannot read properties of null (reading '" ++ k ++ "')"))
  | _ => Normal (property v k)
  end.

(** [v?.k] *)
Definition opt_member (v : value) (k : string) : value :=
  if nullish v then Undefined else property v k.

(** [v === s] for a string literal [s] *)
Definition strict_eq_string (v : value) (s : string) : bool :=
  match v with
  | Str t => String.eqb t s
  | _ => false
  end.

Fixpoint join (sep : string) (parts : list string) : string :=
  match parts with
  | [] => ""
  | [p] => p
  | p :: rest => p ++ sep ++ join sep rest
  end.

(** Whether an object parsed from JSON has the own key [k]. *)
Definition has_own (k : string) (props : list (string * value)) : bool :=
  existsb (fun kv => String.eqb (fst kv) k) props.

(** ToString, as applied by a template literal.  An object parsed from
    JSON holds no function: with an own [toString] key neither [toString]
    nor the inherited [valueOf] yields a primitive and the conversion
    throws; without one, [Object.prototype.toString] answers.  An array
    joins its elements, [undefined] and [null] counting as empty. *)
Fixpoint ToString (h : host) (v : value) : completion string :=
  match v with
  | Undefined => Normal "undefined"
  | Null => Normal "null"
  | Bool true => Normal "true"
  | Bool false => Normal "false"
  | Num n => Normal (Number_toString h n)
  | Str s => Normal s
  | Arr elems =>
      match
        (fix parts (l : list value) : completion (list string) :=
           match l with
           | [] => Normal []
           | e :: rest =>
               match (if nullish e then Normal "" else ToString h e) with
               | Throw x => Throw x
               | Normal p =>
                   match parts rest with
                   | Throw x => Throw x
                   | Normal ps => Normal (p :: ps)
                   end
               end
           end) elems
      with
      | Throw x => Throw x
      | Normal ps => Normal (join "," ps)
      end
  | Obj props =>
      if has_own "toString" props
      then Throw (JsError "Cannot convert object to primitive value")
      else Normal "[object Object]"
  end.

(** ToNumber, as applied by the operator [/]; an array or an object is
    first converted to a string. *)
Definition ToNumber (h : host) (v : value) : completion number :=
  match v with
  | Undefined => Normal NaN
  | Null => Normal (Fin 0)
  | Bool true => Normal (Fin 1)
  | Bool false => Normal (Fin 0)
  | Num n => Normal n
  | Str s => Normal (StringToNumber h s)
  | Arr _ | Obj _ =>
      match ToString h v with
      | Throw x => Throw x
      | Normal s => Normal (StringToNumber h s)
      end
  end.

(** *** Rounding to binary64 *)

(** The integer nearest to N/D for D > 0, a tie going to the even one. *)
Definition round_half_even (N D : Z) : Z :=
  let f := (N / D)%Z in
  match (2 * (N mod D) ?= D)%Z with
  | Lt => f
  | Gt => (f + 1)%Z
  | Eq => if Z.even f then f else (f + 1)%Z
  end.

(** Whether 2^k <= n/d. *)
Definition le_pow2 (k : Z) (n d : positive) : bool :=
  if (0 <=? k)%Z then (Z.pos d * 2 ^ k <=? Z.pos n)%Z
  else (Z.pos d <=? Z.pos n * 2 ^ (- k))%Z.

(** The integer part of the binary logarithm of n/d. *)
Definition log2_floor (n d : positive) : Z :=
  let k := (Z.log2 (Z.pos n) - Z.log2 (Z.pos d))%Z in
  if le_pow2 k n d then k else (k - 1)%Z.

(** The binary64 value nearest to n/d: a significand of 53 bits at the
    exponent of n/d, or at the least exponent, -1074, below the normal
    range; past the largest finite value the result is infinite. *)
Definition binary64_pos (n d : positive) : number :=
  let e := Z.max (log2_floor n d - 52) (-1074) in
  if (e <? 0)%Z then
    Fin (round_half_even (Z.pos n * 2 ^ (- e)) (Z.pos d)
         # Z.to_pos (2 ^ (- e)))
  else
    let m := round_half_even (Z.pos n) (Z.pos d * 2 ^ e) in
    if (2 ^ 1024 <=? m * 2 ^ e)%Z then PosInfinity
    else Fin (inject_Z (m * 2 ^ e)).

Definition negate (n : number) : number :=
  match n with
  | Fin q => Fin (- q)
  | NaN => NaN
  | PosInfinity => NegInfinity
  | NegInfinity => PosInfinity
  end.

(** The binary64 value nearest to a rational. *)
Definition binary64 (q : Q) : number :=
  match Qnum q with
  | Z0 => Fin 0
  | Z.pos n => binary64_pos n (Qden q)
  | Z.neg n => negate (binary64_pos n (Qden q))
  end.

(** [x / 100]: the exact quotient, rounded to binary64. *)
Definition div100 (n : number) : number :=
  match n with
  | Fin q => binary64 (q / 100)
  | other => other
  end.

(** [Math.round]: the integer nearest to the argument, a tie going to the
    larger one; it is computed exactly. *)
Definition Math_round (n : number) : number :=
  match n with
  | Fin q => Fin (inject_Z (Qfloor (q + (1 # 2))))
  | other => other
  end.

(** *** Strings

    A string is a sequence of code units below 256 (Latin-1); the case
    mapping and the white-space set are ECMAScript's on that range. *)

Definition code (c : ascii) : N := N_of_ascii c.

Definition is_upper (c : ascii) : bool :=
  let n := code c in
  ((65 <=? n) && (n <=? 90)
   || (192 <=? n) && (n <=? 222) && negb (n =? 215))%N.

Definition lower_char (c : ascii) : ascii :=
  if is_upper c then ascii_of_N (code c + 32) else c.

Fixpoint toLowerCase (s : string) : string :=
  match s with
  | EmptyString => EmptyString
  | String c rest => String (lower_char c) (toLowerCase rest)
  end.

(** TAB, LF, VT, FF, CR, SP and NBSP *)
Definition is_space (c : ascii) : bool :=
  let n := code c in
  ((9 <=? n) && (n <=? 13) || (n =? 32) || (n =? 160))%N.

Fixpoint trimStart (s : string) : string :=
  match s with
  | EmptyString => EmptyString
  | String c rest => if is_space c then trimStart rest else s
  end.

Fixpoint trimEnd (s : string) : string :=
  match s with
  | EmptyString => EmptyString
  | String c rest =>
      match trimEnd rest with
      | EmptyString => if is_space c then EmptyString
                       else String c EmptyString
      | kept => String c kept
      end
  end.

Definition trim (s : string) : string := trimEnd (trimStart s).

(** [s.includes(sub)] *)
Fixpoint includes (s sub : string) : bool :=
  prefix sub s
  || match s with
     | EmptyString => false
     | String _ rest => includes rest sub
     end.

(** [v.toLowerCase().trim()] for a value that need not be a string: on
    anything else the method is [undefined] and the call throws. *)
Definition toLowerCase_trim (what : string) (v : value) : completion string :=
  match v with
  | Str s => Normal (trim (toLowerCase s))
  | _ => Throw (JsError (what ++ ".toLowerCase is not a function"))
  end.

End Js.

(** ** The HTTP exchange *)

Module Http.

(** [req.method] (possibly [undefined]) and [req.body], the parsed JSON. *)
Record request : Type := {
  method : option string;
  body : Js.value
}.

(** What the handler sent: [res.status(c).end()] or [res.status(c).json(v)],
    after the headers set with [res.setHeader]. *)
Inductive sent : Type :=
| End
| Json (v : Js.value).

Record response : Type := {
  headers : list (string * string);
  status : Z;
  payload : sent
}.

Definition setHeader (hs : list (string * string)) (k v : string)
  : list (string * string) := (hs ++ [(k, v)])%list.

Definition method_is (req : request) (m : string) : bool :=
  match method req with
  | Some m' => String.eqb m' m
  | None => false
  end.

End Http.

(** ** Process configuration and the store *)

(** [process.env] *)
Record process_env : Type := {
  SUPABASE_URL : option string;
  SUPABASE_SERVICE_ROLE_KEY : option string
}.

(** Truthiness of [process.env.X], a string or [undefined]. *)
Definition env_set (x : option string) : bool :=
  match x with
  | Some s => negb (String.eqb s "")
  | None => false
  end.

(** [interface RegistrationRecord]: the object handed to the store.  The
    declared field types are not checked at run time, so each field holds
    whatever value the handler put there. *)
Record RegistrationRecord : Type := {
  event_id : Js.value;
  user_email : Js.value;
  amount : Js.value;
  payment_id : Js.value;
  status : Js.value
}.

Module Supabase.

(** The [error] of a PostgREST reply. *)
Record PostgrestError : Type := {
  message : string;
  details : string;
  hint : string;
  code : string
}.

(** [supabase.from(table).insert(rows).select()] *)
Record call : Type := {
  table : string;
  rows : list RegistrationRecord
}.

(** The awaited [{ data, error }]; [data] is [null] or the rows returned. *)
Record reply : Type := {
  data : option (list Js.value);
  error : option PostgrestError
}.

(** A client answers each call, or the awaited promise rejects. *)
Definition client : Type := call -> Js.completion reply.

(** The service behind [createClient]: the client for a URL and a key. *)
Definition service : Type := string -> string -> client.

(** [createClient(url, key)] of supabase-js: it throws on a missing URL,
    then on a URL it does not accept, then on a missing key; otherwise it
    returns the client. *)
Definition createClient (h : Js.host) (svc : service)
  (url key : option string) : Js.completion client :=
  match url with
  | None => Js.Throw (Js.JsError "supabaseUrl is required.")
  | Some u =>
      if negb (env_set url)
      then Js.Throw (Js.JsError "supabaseUrl is required.")
      else
        match Js.supabaseUrl_error h u with
        | Some e => Js.Throw e
        | None =>
            match key with
            | None => Js.Throw (Js.JsError "supabaseKey is required.")
            | Some k =>
                if negb (env_set key)
                then Js.Throw (Js.JsError "supabaseKey is required.")
                else Js.Normal (svc u k)
            end
        end
  end.

End Supabase.

(** ** Statements of a handler body

    A statement continues with a value, returns the response, or throws;
    the store calls made so far are threaded through. *)

Module Eff.

Inductive step (A : Type) : Type :=
| Continue (a : A)
| Return (r : Http.response)
| Raise (e : Js.exn).
Arguments Continue {A} a.
Arguments Return {A} r.
Arguments Raise {A} e.

Definition M (A : Type) : Type :=
  list Supabase.call -> step A * list Supabase.call.

Definition ret {A} (a : A) : M A := fun calls => (Continue a, calls).

Definition bind {A B} (m : M A) (k : A -> M B) : M B :=
  fun calls =>
    match m calls with
    | (Continue a, calls') => k a calls'
    | (Return r, calls') => (Return r, calls')
    | (Raise e, calls') => (Raise e, calls')
    end.

(** [return r;] *)
Definition return_ {A} (r : Http.response) : M A :=
  fun calls => (Return r, calls).

(** An expression that may throw. *)
Definition eval {A} (c : Js.completion A) : M A :=
  fun calls =>
    match c with
    | Js.Normal a => (Continue a, calls)
    | Js.Throw e => (Raise e, calls)
    end.

(** [if (b) { return r; }] *)
Definition return_if (b : bool) (r : Http.response) : M unit :=
  if b then return_ r else ret tt.

(** [await supabase.from(table).insert(rows).select()] *)
Definition insert (supabase : Supabase.client) (c : Supabase.call)
  : M Supabase.reply :=
  fun calls =>
    match supabase c with
    | Js.Normal r => (Continue r, (calls ++ [c])%list)
    | Js.Throw e => (Raise e, (calls ++ [c])%list)
    end.

(** [try { block } catch (e) { return handler(e); }] around a block that
    always returns or throws, run after the calls made so far. *)
Definition try_catch (block : M Empty_set) (handler : Js.exn -> Http.response)
  (calls : list Supabase.call) : Http.response * list Supabase.call :=
  match block calls with
  | (Return r, calls') => (r, calls')
  | (Raise e, calls') => (handler e, calls')
  | (Continue nothing, _) => match nothing with end
  end.

End Eff.

Declare Scope eff_scope.
Delimit Scope eff_scope with eff.
Notation "x <- m ;; k" := (Eff.bind m (fun x => k))
  (at level 61, m at next level, right associativity) : eff_scope.
Notation "m ;; k" := (Eff.bind m (fun _ => k))
  (at level 61, right associativity) : eff_scope.

(** ** [src/api/payment-webhook.ts] *)

Module PaymentWebhook.
Import Js.
Local Open Scope eff_scope.

Section Handler.

Variable h : host.
Variable env : process_env.
Variable svc : Supabase.service.
Variable req : Http.request.

(** The three [res.setHeader] calls that open the handler. *)
Definition cors : list (string * string) :=
  Http.setHeader
    (Http.setHeader
       (Http.setHeader [] "Access-Control-Allow-Origin" "*")
       "Access-Control-Allow-Methods" "POST")
    "Access-Control-Allow-Headers" "Content-Type".

Definition end_ (c : Z) : Http.response :=
  {| Http.headers := cors; Http.status := c; Http.payload := Http.End |}.

Definition json (c : Z) (v : value) : Http.response :=
  {| Http.headers := cors; Http.status := c; Http.payload := Http.Json v |}.

(** Lines 136-140: the four checks, each pushing its field's name. *)
Definition missingFields (payment : value) : list string :=
  let missingFields : list string := [] in
  let missingFields :=
    if negb (truthy (opt_member payment "id"))
    then (missingFields ++ ["payment.id"])%list else missingFields in
  let missingFields :=
    if negb (truthy (opt_member payment "email"))
    then (missingFields ++ ["payment.email"])%list else missingFields in
  let missingFields :=
    if negb (String.eqb (typeof (opt_member payment "amount")) "number")
    then (missingFields ++ ["payment.amount"])%list else missingFields in
  let missingFields :=
    if negb (truthy (opt_member (opt_member payment "notes") "event_id"))
    then (missingFields ++ ["payment.notes.event_id"])%list
    else missingFields in
  missingFields.

(** Lines 147-154: the [received_data] object of the 400 reply. *)
Definition received_data (payment : value) : value :=
  Obj [ ("hasPayment", Bool (truthy payment));
        ("hasId", Bool (truthy (opt_member payment "id")));
        ("hasEmail", Bool (truthy (opt_member payment "email")));
        ("hasAmount", Str (typeof (opt_member payment "amount")));
        ("hasNotes", Bool (truthy (opt_member payment "notes")));
        ("hasEventId",
         Bool (truthy (opt_member (opt_member payment "notes") "event_id")))
      ].

(** Line 159 *)
Definition amountInRupees (payment : value) : completion number :=
  match member payment "amount" with
  | Normal a =>
      match ToNumber h a with
      | Normal n => Normal (Math_round (div100 n))
      | Throw e => Throw e
      end
  | Throw e => Throw e
  end.

(** Lines 162-168: the object literal, its fields evaluated in order. *)
Definition registrationData (payment : value) (amountInRupees : number)
  : Eff.M RegistrationRecord :=
  notes <- Eff.eval (member payment "notes") ;;
  event_id <- Eff.eval (member notes "event_id") ;;
  email <- Eff.eval (member payment "email") ;;
  user_email <- Eff.eval (toLowerCase_trim "payment.email" email) ;;
  id <- Eff.eval (member payment "id") ;;
  Eff.ret {| event_id := event_id;
             user_email := Str user_email;
             amount := Num amountInRupees;
             payment_id := id;
             status := Str "success" |}.

(** Lines 183-206: the reply to a store error. *)
Definition on_error (payment : value) (error : Supabase.PostgrestError)
  : Eff.M Empty_set :=
  if String.eqb (Supabase.code error) "23505"
     && includes (Supabase.message error) "payment_id"
  then
    id <- Eff.eval (member payment "id") ;;
    Eff.return_
      (json 200 (Obj [ ("message", Str "Payment already processed");
                       ("payment_id", id);
                       ("duplicate", Bool true) ]))
  else
    Eff.return_
      (json 500 (Obj [ ("error", Str "Failed to save registration data");
                       ("details", Str (Supabase.message error));
                       ("code", Str (Supabase.code error)) ])).

(** Lines 208-228: the reply when the store reported no error. *)
Definition on_data (data : option (list value)) (amountInRupees : number)
  : Eff.M Empty_set :=
  match data with
  | None | Some [] =>
      Eff.return_
        (json 500
           (Obj [ ("error",
                   Str "Registration may not have been saved properly") ]))
  | Some (row :: _) =>
      id <- Eff.eval (member row "id") ;;
      event_id <- Eff.eval (member row "event_id") ;;
      Eff.return_
        (json 200
           (Obj [ ("message",
                   Str "Payment processed and registration saved successfully");
                  ("registration_id", id);
                  ("event_id", event_id);
                  ("amount_rupees", Num amountInRupees);
                  ("timestamp", Str (Date_toISOString h)) ]))
  end.

(** Lines 101-229: the body of [try].  [payload.event] is read at lines
    120, 125 and 128 with the same result; the [console] calls write to
    the log only.  The template literal of line 128 converts the event to
    a string, which can throw. *)
Definition try_block : Eff.M Empty_set :=
  Eff.return_if
    (negb (env_set (SUPABASE_URL env))
     || negb (env_set (SUPABASE_SERVICE_ROLE_KEY env)))
    (json 500
       (Obj [ ("error",
               Str "Server configuration error: Missing Supabase credentials")
            ])) ;;
  supabase <-
    Eff.eval (Supabase.createClient h svc (SUPABASE_URL env)
                (SUPABASE_SERVICE_ROLE_KEY env)) ;;
  let payload := Http.body req in
  event <- Eff.eval (member payload "event") ;;
  (if negb (strict_eq_string event "payment.captured")
   then
     received <- Eff.eval (ToString h event) ;;
     Eff.return_
       (json 200
          (Obj [ ("message",
                  Str ("Event ignored. Only payment.captured events are processed. Received: "
                       ++ received)) ]))
   else Eff.ret tt) ;;
  payment <- Eff.eval (member payload "payment") ;;
  let missing := missingFields payment in
  Eff.return_if
    (0 <? Z.of_nat (List.length missing))
    (json 400
       (Obj [ ("error", Str "Missing required payment data");
              ("missing_fields", Arr (map Str missing));
              ("received_data", received_data payment) ])) ;;
  amountInRupees <- Eff.eval (amountInRupees payment) ;;
  registrationData <- registrationData payment amountInRupees ;;
  reply <-
    Eff.insert supabase
      {| Supabase.table := "eventsregistrations";
         Supabase.rows := [registrationData] |} ;;
  match Supabase.error reply with
  | Some error => on_error payment error
  | None => on_data (Supabase.data reply) amountInRupees
  end.

(** Lines 230-241: the [catch] clause. *)
Definition on_catch (e : exn) : Http.response :=
  json 500
    (Obj [ ("error", Str "Internal server error while processing webhook");
           ("details",
            Str match e with
                | JsError message => message
                | Thrown _ => "Unknown error occurred"
                end) ]).

(** The exported function: the response sent and the store calls made. *)
Definition handler : Http.response * list Supabase.call :=
  if Http.method_is req "OPTIONS" then (end_ 200, [])
  else if negb (Http.method_is req "POST") then
    (json 405
       (Obj [ ("error",
               Str "Method not allowed. Only POST requests are accepted.");
              ("allowed_methods", Arr [Str "POST"]) ]),
     [])
  else Eff.try_catch try_block on_catch [].

End Handler.

End PaymentWebhook.

(** ** The earlier variant of the handler *)

Module Variant.
Import Js.
Local Open Scope eff_scope.

Section Handler.

Variable h : host.
Variable env : process_env.
Variable svc : Supabase.service.
Variable req : Http.request.

Definition json (c : Z) (v : value) : Http.response :=
  {| Http.headers := []; Http.status := c; Http.payload := Http.Json v |}.

(** Line 91: [!payment.id || !payment.email || !payment.amount ||
    !payment.notes?.event_id], evaluated left to right until one holds. *)
Definition missing (payment : value) : completion bool :=
  match member payment "id" with
  | Throw e => Throw e
  | Normal id =>
      if negb (truthy id) then Normal true
      else
        match member payment "email" with
        | Throw e => Throw e
        | Normal email =>
            if negb (truthy email) then Normal true
            else
              match member payment "amount" with
              | Throw e => Throw e
              | Normal amount =>
                  if negb (truthy amount) then Normal true
                  else
                    match member payment "notes" with
                    | Throw e => Throw e
                    | Normal notes =>
                        Normal (negb (truthy (opt_member notes "event_id")))
                    end
              end
        end
  end.

(** Line 105 *)
Definition amountInRupees (payment : value) : completion number :=
  match member payment "amount" with
  | Normal a =>
      match ToNumber h a with
      | Normal n => Normal (div100 n)
      | Throw e => Throw e
      end
  | Throw e => Throw e
  end.

(** Lines 108-114 *)
Definition registrationData (payment : value) (amountInRupees : number)
  : Eff.M RegistrationRecord :=
  notes <- Eff.eval (member payment "notes") ;;
  event_id <- Eff.eval (member notes "event_id") ;;
  email <- Eff.eval (member payment "email") ;;
  id <- Eff.eval (member payment "id") ;;
  Eff.ret {| event_id := event_id;
             user_email := email;
             amount := Num amountInRupees;
             payment_id := id;
             status := Str "success" |}.

(** [data[0]] *)
Definition first_row (data : option (list value)) : completion value :=
  match data with
  | None => Throw (JsError "Cannot read properties of null (reading '0')")
  | Some [] => Normal Undefined
  | Some (row :: _) => Normal row
  end.

(** Lines 67-139: the body of [try]. *)
Definition try_block : Eff.M Empty_set :=
  supabase <-
    Eff.eval (Supabase.createClient h svc (SUPABASE_URL env)
                (SUPABASE_SERVICE_ROLE_KEY env)) ;;
  let payload := Http.body req in
  event <- Eff.eval (member payload "event") ;;
  Eff.return_if
    (negb (strict_eq_string event "payment.captured"))
    (json 200
       (Obj [ ("message",
               Str "Event ignored. Only payment.captured events are processed.")
            ])) ;;
  payment <- Eff.eval (member payload "payment") ;;
  missing <- Eff.eval (missing payment) ;;
  Eff.return_if missing
    (json 400
       (Obj [ ("error",
               Str "Missing required payment data: id, email, amount, or notes.event_id")
            ])) ;;
  amountInRupees <- Eff.eval (amountInRupees payment) ;;
  registrationData <- registrationData payment amountInRupees ;;
  reply <-
    Eff.insert supabase
      {| Supabase.table := "eventsregistrations";
         Supabase.rows := [registrationData] |} ;;
  match Supabase.error reply with
  | Some error =>
      Eff.return_
        (json 500
           (Obj [ ("error", Str "Failed to save registration data");
                  ("details", Str (Supabase.message error)) ]))
  | None =>
      row <- Eff.eval (first_row (Supabase.data reply)) ;;
      id <- Eff.eval (member row "id") ;;
      Eff.return_
        (json 200
           (Obj [ ("message",
                   Str "Payment processed and registration saved successfully");
                  ("registration_id", id) ]))
  end.

(** Lines 140-147: the [catch] clause. *)
Definition on_catch (e : exn) : Http.response :=
  json 500
    (Obj [ ("error", Str "Internal server error while processing webhook");
           ("details",
            Str match e with
                | JsError message => message
                | Thrown _ => "Unknown error"
                end) ]).

Definition handler : Http.response * list Supabase.call :=
  if negb (Http.method_is req "POST") then
    (json 405
       (Obj [ ("error",
               Str "Method not allowed. Only POST requests are accepted.") ]),
     [])
  else Eff.try_catch try_block on_catch [].

End Handler.

End Variant.

(** ** What the specification says, in its own words *)

Module Spec.
Import Js.

(** The four required fields, by the names the 400 reply uses. *)
Definition required_fields : list string :=
  [ "payment.id"; "payment.email"; "payment.amount";
    "payment.notes.event_id" ].

(** The value found in a notification's payment at each of these names. *)
Definition field (payment : value) (name : string) : value :=
  if String.eqb name "payment.id" then opt_member payment "id"
  else if String.eqb name "payment.email" then opt_member payment "email"
  else if String.eqb name "payment.amount" then opt_member payment "amount"
  else if String.eqb name "payment.notes.event_id"
  then opt_member (opt_member payment "notes") "event_id"
  else Undefined.

Definition non_empty_string (v : value) : bool :=
  match v with
  | Str s => negb (String.eqb s "")
  | _ => false
  end.

Definition numeric (v : value) : bool :=
  match v with
  | Num _ => true
  | _ => false
  end.

(** Step 4: [payment.id], [payment.email] and [payment.notes.event_id] are
    non-empty strings, [payment.amount] is numeric. *)
Definition well_typed (payment : value) (name : string) : bool :=
  if String.eqb name "payment.amount" then numeric (field payment name)
  else non_empty_string (field payment name).

(** The fields that are missing or wrong-typed in that sense. *)
Definition missing_or_wrong_typed (payment : value) : list string :=
  filter (fun name => negb (well_typed payment name)) required_fields.

(** A valid [payment.captured] notification. *)
Definition valid_notification (body : value) : Prop :=
  member body "event" = Normal (Str "payment.captured")
  /\ missing_or_wrong_typed (property body "payment") = [].

(** Step 5: [n] major units is [a] minor units divided by 100 and rounded
    to the nearest integer, a tie going up. *)
Definition nearest_major_unit (a n : Z) : Prop :=
  100 * n - 50 <= a < 100 * n + 50.

(** Truncation, which step 5 rules out. *)
Definition truncated_major_unit (a : Z) : Z := Z.quot a 100.

Fixpoint all_space (s : string) : bool :=
  match s with
  | EmptyString => true
  | String c rest => is_space c && all_space rest
  end.

Definition first_char (s : string) : option ascii :=
  match s with
  | EmptyString => None
  | String c _ => Some c
  end.

Fixpoint last_char (s : string) : option ascii :=
  match s with
  | EmptyString => None
  | String c EmptyString => Some c
  | String _ rest => last_char rest
  end.

Definition not_space (c : option ascii) : Prop :=
  match c with
  | Some c => is_space c = false
  | None => True
  end.

(** [t] is [s] without its surrounding white space. *)
Definition trimmed (s t : string) : Prop :=
  exists l r,
    all_space l = true /\ all_space r = true /\ s = l ++ t ++ r
    /\ not_space (first_char t) /\ not_space (last_char t).

(** [t] is [s] with every upper-case letter replaced by its lower-case
    form (32 code points higher) and every other character kept. *)
Inductive lower_cased : string -> string -> Prop :=
| lower_empty : lower_cased "" ""
| lower_keep c s t :
    is_upper c = false -> lower_cased s t ->
    lower_cased (String c s) (String c t)
| lower_fold c d s t :
    is_upper c = true -> code d = (code c + 32)%N -> lower_cased s t ->
    lower_cased (String c s) (String d t).

(** Step 5 on the e-mail address: lower-cased, then trimmed. *)
Definition normalized_email (email stored : string) : Prop :=
  exists lowered, lower_cased email lowered /\ trimmed lowered stored.

End Spec.

(** ** The validation as the handler performs it *)

Module Checks.
Import Js.

(** The values JavaScript counts as false. *)
Definition falsy (v : value) : bool :=
  match v with
  | Undefined | Null | Bool false | Num NaN => true
  | Num (Fin q) => Qeq_bool q 0
  | Str EmptyString => true
  | _ => false
  end.

(** What the handler's validation rejects: a falsy [id], [email] or
    [event_id], and an [amount] that is not a number. *)
Definition rejected (payment : value) (name : string) : bool :=
  if String.eqb name "payment.amount"
  then negb (Spec.numeric (Spec.field payment name))
  else falsy (Spec.field payment name).

End Checks.

(** The record of a store call that inserts exactly one row. *)
Definition inserted (c : Supabase.call) : option RegistrationRecord :=
  match Supabase.rows c with
  | [r] => Some r
  | _ => None
  end.

Definition calls_of (out : Http.response * list Supabase.call)
  : list Supabase.call := snd out.

Definition response_of (out : Http.response * list Supabase.call)
  : Http.response := fst out.

(** Both credentials are set, to the URL [u] and the key [k]. *)
Definition configured (env : process_env) (u k : string) : Prop :=
  SUPABASE_URL env = Some u /\ SUPABASE_SERVICE_ROLE_KEY env = Some k
  /\ u <> "" /\ k <> "".

(** One of the credentials is unset or empty. *)
Definition unconfigured (env : process_env) : Prop :=
  env_set (SUPABASE_URL env) = false
  \/ env_set (SUPABASE_SERVICE_ROLE_KEY env) = false.

(** The row the main handler builds from a payment whose [email] is the
    string [s] and whose [amount] is the number [n]. *)
Definition registration (payment : Js.value) (s : string) (n : Js.number)
  : RegistrationRecord :=
  {| event_id := Js.property (Js.property payment "notes") "event_id";
     user_email := Js.Str (Js.trim (Js.toLowerCase s));
     amount := Js.Num (Js.Math_round (Js.div100 n));
     payment_id := Js.property payment "id";
     status := Js.Str "success" |}.

(** The one store call either handler makes. *)
Definition insert_of (r : RegistrationRecord) : Supabase.call :=
  {| Supabase.table := "eventsregistrations"; Supabase.rows := [r] |}.

(** The row the variant builds from a payment whose [amount] converts to
    the number [n]. *)
Definition variant_registration (payment : Js.value) (n : Js.number)
  : RegistrationRecord :=
  {| event_id := Js.property (Js.property payment "notes") "event_id";
     user_email := Js.property payment "email";
     amount := Js.Num (Js.div100 n);
     payment_id := Js.property payment "id";
     status := Js.Str "success" |}.

(** The store client is created: both credentials are set and
    [createClient] accepts the URL. *)
Definition client_created (h : Js.host) (env : process_env) (u k : string)
  : Prop :=
  configured env u k /\ Js.supabaseUrl_error h u = None.

(** A reply sent with [res.status(c).json(v)] after the headers [hs], with
    one of the four status codes the handlers use. *)
Definition structured (hs : list (string * string)) (r : Http.response)
  : Prop :=
  Http.headers r = hs
  /\ In (Http.status r) [200; 400; 405; 500]
  /\ exists v, Http.payload r = Http.Json v.

(** A statement that returns does so with a structured reply. *)
Definition well_behaved (hs : list (string * string))
  (out : Eff.step Empty_set * list Supabase.call) : Prop :=
  match fst out with
  | Eff.Return r => structured hs r
  | _ => True
  end.

(** ** Sample inputs *)

Module Sample.
Import Js.

Definition a_host : host :=
  {| Number_toString := fun _ => "0";
     StringToNumber := fun _ => NaN;
     Date_toISOString := "2025-01-01T00:00:00.000Z";
     supabaseUrl_error := fun _ => None |}.

(** A host whose [createClient] accepts only URLs that start with
    [http]. *)
Definition a_strict_host : host :=
  {| Number_toString := fun _ => "0";
     StringToNumber := fun _ => NaN;
     Date_toISOString := "2025-01-01T00:00:00.000Z";
     supabaseUrl_error :=
       fun u =>
         if prefix "http" u then None
         else Some (JsError "Invalid supabaseUrl: Must be a valid HTTP or HTTPS URL.") |}.

Definition configured : process_env :=
  {| SUPABASE_URL := Some "https://project.supabase.co";
     SUPABASE_SERVICE_ROLE_KEY := Some "service-role-key" |}.

Definition unconfigured : process_env :=
  {| SUPABASE_URL := None; SUPABASE_SERVICE_ROLE_KEY := None |}.

(** Both credentials set, the URL without its scheme. *)
Definition misconfigured : process_env :=
  {| SUPABASE_URL := Some "project.supabase.co";
     SUPABASE_SERVICE_ROLE_KEY := Some "service-role-key" |}.

Definition payment_of (id email amount event : value) : value :=
  Obj [ ("id", id); ("email", email); ("amount", amount);
        ("notes", Obj [ ("event_id", event) ]) ].

Definition captured (payment : value) : Http.request :=
  {| Http.method := Some "POST";
     Http.body := Obj [ ("event", Str "payment.captured");
                        ("payment", payment) ] |}.

Definition int (z : Z) : value := Num (Fin (inject_Z z)).

Definition a_payment (minor : Z) : value :=
  payment_of (Str "pay_1") (Str "  User@Example.COM ") (int minor)
    (Str "event_a").

Definition stored_row : value :=
  Obj [ ("id", Str "row-1"); ("event_id", Str "event_a");
        ("user_email", Str "user@example.com") ].

(** A store that accepts every insert and returns one row. *)
Definition accepting : Supabase.service :=
  fun _ _ _ =>
    Normal {| Supabase.data := Some [stored_row]; Supabase.error := None |}.

Definition unique_violation : Supabase.PostgrestError :=
  {| Supabase.message :=
       "duplicate key value violates unique constraint eventsregistrations_payment_id_key";
     Supabase.details := "Key (payment_id)=(pay_1) already exists.";
     Supabase.hint := "";
     Supabase.code := "23505" |}.

(** A store that already holds the payment. *)
Definition rejecting_duplicate : Supabase.service :=
  fun _ _ _ =>
    Normal {| Supabase.data := None;
              Supabase.error := Some unique_violation |}.

(** A store that reports success and returns no row. *)
Definition silent : Supabase.service :=
  fun _ _ _ => Normal {| Supabase.data := Some []; Supabase.error := None |}.

(** The call the main handler makes for [a_payment minor]. *)
Definition insert (minor : Z) : Supabase.call :=
  insert_of
    (registration (a_payment minor) "  User@Example.COM "
       (Fin (inject_Z minor))).

Definition get : Http.request :=
  {| Http.method := Some "GET"; Http.body := Undefined |}.

Definition options : Http.request :=
  {| Http.method := Some "OPTIONS"; Http.body := Undefined |}.

(** A POST of another event type. *)
Definition failed : Http.request :=
  {| Http.method := Some "POST";
     Http.body := Obj [ ("event", Str "payment.failed") ] |}.

Definition url : string := "https://project.supabase.co".

Definition key : string := "service-role-key".

Definition timeout : Supabase.PostgrestError :=
  {| Supabase.message := "canceling statement due to statement timeout";
     Supabase.details := "";
     Supabase.hint := "";
     Supabase.code := "57014" |}.

(** A store that fails for a reason other than a duplicate. *)
Definition failing : Supabase.service :=
  fun _ _ _ =>
    Normal {| Supabase.data := None; Supabase.error := Some timeout |}.

(** A store whose promise rejects. *)
Definition unreachable : Supabase.service :=
  fun _ _ _ => Throw (JsError "fetch failed").

(** A payment whose [email] is a number. *)
Definition numeric_email : value :=
  payment_of (Str "pay_1") (Num (Fin 7)) (int 100) (Str "event_a").

(** The call the variant makes for [a_payment minor]. *)
Definition variant_insert (minor : Z) : Supabase.call :=
  insert_of (variant_registration (a_payment minor) (Fin (inject_Z minor))).

End Sample.


(** * Properties *)

Import Js.

(** ** Numbers *)

Lemma round_half_even_error (N D : Z) :
  0 < D -> - D <= 2 * (D * round_half_even N D - N) <= D.
Proof.
  intros HD. unfold round_half_even.
  pose proof (Z.div_mod N D ltac:(lia)) as E.
  pose proof (Z.mod_pos_bound N D HD) as B.
  destruct (Z.compare_spec (2 * (N mod D)) D) as [C | C | C].
  - destruct (Z.even (N / D)); nia.
  - nia.
  - nia.
Qed.

Lemma log2_floor_le (n d : positive) :
  log2_floor n d <= Z.log2 (Z.pos n) - Z.log2 (Z.pos d).
Proof. unfold log2_floor. destruct (le_pow2 _ n d); lia. Qed.

Lemma nearest_from_rounded (a m P2 : Z) :
  32 <= P2 ->
  -50 <= 100 * m - 2 * a * P2 <= 50 ->
  (m * 2 + 1 * (2 * P2)) / (2 * P2 * 2) = (a + 50) / 100.
Proof.
  intros HP H.
  pose proof (Z.div_mod (a + 50) 100 ltac:(lia)) as E.
  pose proof (Z.mod_pos_bound (a + 50) 100 ltac:(lia)) as B.
  set (k := (a + 50) / 100) in *.
  symmetry. apply (Z.div_unique _ _ k (m * 2 + 1 * (2 * P2) - 2 * P2 * 2 * k)).
  - left. nia.
  - ring.
Qed.

Lemma binary64_pos_hundredths (p : positive) :
  Z.pos p < 2 ^ 53 ->
  exists m P2,
    32 <= P2
    /\ -50 <= 100 * m - 2 * Z.pos p * P2 <= 50
    /\ binary64_pos p 100 = Fin (m # Z.to_pos (2 * P2)).
Proof.
  intros Hp. unfold binary64_pos.
  pose proof (log2_floor_le p 100) as Hl.
  assert (Hlog : Z.log2 (Z.pos p) < 53)
    by (apply Z.log2_lt_pow2; lia).
  change (Z.log2 (Z.pos 100)) with 6 in Hl.
  set (e := Z.max (log2_floor p 100 - 52) (-1074)).
  assert (He : -1074 <= e <= -6) by lia.
  destruct (Z.ltb_spec e 0) as [_ | Hge]; [| lia].
  exists (round_half_even (Z.pos p * 2 ^ (- e)) 100), (2 ^ (- e - 1)).
  assert (Hpow : 2 ^ (- e) = 2 * 2 ^ (- e - 1)).
  { rewrite <- Z.pow_succ_r by lia. f_equal. lia. }
  split.
  - change 32 with (2 ^ 5). apply Z.pow_le_mono_r; lia.
  - split.
    + pose proof (round_half_even_error (Z.pos p * 2 ^ (- e)) 100
                    ltac:(lia)) as Herr.
      rewrite Hpow in Herr |- *. lia.
    + now rewrite Hpow.
Qed.

Lemma Math_round_div100_integer (a : Z) :
  Z.abs a < 2 ^ 53 ->
  Math_round (div100 (Fin (inject_Z a))) = Fin (inject_Z ((a + 50) / 100)).
Proof.
  intros Ha. unfold div100.
  change (inject_Z a / 100)%Q with ((a * 1) # 100).
  unfold binary64. cbn [Qnum Qden]. rewrite Z.mul_1_r.
  destruct a as [| p | p].
  - reflexivity.
  - destruct (binary64_pos_hundredths p) as (m & P2 & HP & Hm & ->);
      [lia |].
    unfold Math_round. do 2 f_equal.
    unfold Qfloor, Qplus. cbn [Qnum Qden].
    rewrite Pos2Z.inj_mul, Z2Pos.id by lia.
    apply nearest_from_rounded; [exact HP | lia].
  - destruct (binary64_pos_hundredths p) as (m & P2 & HP & Hm & ->);
      [lia |].
    unfold negate, Math_round. do 2 f_equal.
    unfold Qfloor, Qplus, Qopp. cbn [Qnum Qden].
    rewrite Pos2Z.inj_mul, Z2Pos.id by lia.
    apply nearest_from_rounded; [exact HP | lia].
Qed.

Lemma nearest_major_unit_div (a : Z) :
  Spec.nearest_major_unit a ((a + 50) / 100).
Proof.
  unfold Spec.nearest_major_unit.
  pose proof (Z.div_mod (a + 50) 100 ltac:(lia)) as E.
  pose proof (Z.mod_pos_bound (a + 50) 100 ltac:(lia)) as B.
  lia.
Qed.

Lemma nearest_major_unit_unique (a n m : Z) :
  Spec.nearest_major_unit a n -> Spec.nearest_major_unit a m -> n = m.
Proof. unfold Spec.nearest_major_unit. lia. Qed.

(** ** Strings *)

Lemma lower_char_code (c : ascii) :
  is_upper c = true -> code (lower_char c) = (code c + 32)%N.
Proof.
  intros U. unfold lower_char. rewrite U. unfold code in *.
  apply N_ascii_embedding.
  unfold is_upper, code in U.
  apply orb_true_iff in U as [U | U].
  - apply andb_true_iff in U as [_ U]. apply N.leb_le in U. lia.
  - apply andb_true_iff in U as [U _].
    apply andb_true_iff in U as [_ U]. apply N.leb_le in U. lia.
Qed.

Lemma toLowerCase_lower_cased (s : string) :
  Spec.lower_cased s (toLowerCase s).
Proof.
  induction s as [| c s IH]; simpl.
  - constructor.
  - destruct (is_upper c) eqn:U.
    + apply Spec.lower_fold; auto using lower_char_code.
    + unfold lower_char. rewrite U. now apply Spec.lower_keep.
Qed.

Lemma trimStart_split (s : string) :
  exists l,
    Spec.all_space l = true /\ s = l ++ trimStart s
    /\ Spec.not_space (Spec.first_char (trimStart s)).
Proof.
  induction s as [| c s (l & Hl & Hs & Hf)]; simpl.
  - exists "". simpl. auto.
  - destruct (is_space c) eqn:W.
    + exists (String c l). simpl. rewrite W, Hl. repeat split; auto.
      now rewrite <- Hs.
    + exists "". simpl. auto.
Qed.

Lemma trimEnd_split (s : string) :
  exists r,
    Spec.all_space r = true /\ s = trimEnd s ++ r
    /\ Spec.not_space (Spec.last_char (trimEnd s))
    /\ (trimEnd s = "" \/ Spec.first_char (trimEnd s) = Spec.first_char s).
Proof.
  induction s as [| c s (r & Hr & Hs & Hl & Hf)]; simpl.
  - exists "". simpl. auto.
  - destruct (trimEnd s) as [| d kept] eqn:T.
    + destruct (is_space c) eqn:W.
      * exists (String c r). simpl. rewrite W, Hr.
        repeat split; auto. now rewrite Hs.
      * exists r. simpl. repeat split; auto. now rewrite Hs.
    + exists r. repeat split; auto.
      rewrite Hs at 1. reflexivity.
Qed.

Lemma append_assoc (a b c : string) : (a ++ b) ++ c = a ++ b ++ c.
Proof. induction a as [| x a IH]; simpl; [reflexivity | now rewrite IH]. Qed.

Lemma trim_trimmed (s : string) : Spec.trimmed s (trim s).
Proof.
  unfold trim.
  destruct (trimStart_split s) as (l & Hl & Hs & Hf).
  destruct (trimEnd_split (trimStart s)) as (r & Hr & Ht & Hlast & Hfirst).
  exists l, r. repeat split; auto.
  - rewrite <- Ht. exact Hs.
  - destruct Hfirst as [E | E].
    + rewrite E. exact I.
    + rewrite E. exact Hf.
Qed.

Lemma email_normalization (email : string) :
  Spec.normalized_email email (trim (toLowerCase email)).
Proof.
  exists (toLowerCase email).
  split; [apply toLowerCase_lower_cased | apply trim_trimmed].
Qed.

(** ** Validation in the main handler *)

Lemma falsy_not_truthy (v : value) : negb (truthy v) = Checks.falsy v.
Proof.
  destruct v as [| | [] | [q | | |] | [| c s] | |]; simpl; try reflexivity.
  rewrite negb_involutive. unfold is_zero, Qeq_bool. simpl.
  rewrite Z.mul_1_r. destruct (Qnum q); reflexivity.
Qed.

Lemma typeof_number (v : value) :
  String.eqb (typeof v) "number" = Spec.numeric v.
Proof. destruct v; reflexivity. Qed.

(** The list pushed by the four checks is the required names in their
    order, each kept exactly when its own check rejects it. *)
Lemma missingFields_filter (payment : value) :
  PaymentWebhook.missingFields payment
  = filter (Checks.rejected payment) Spec.required_fields.
Proof.
  unfold PaymentWebhook.missingFields, Spec.required_fields, Checks.rejected.
  simpl filter. unfold Spec.field. simpl String.eqb.
  rewrite !falsy_not_truthy, typeof_number.
  destruct (Checks.falsy (opt_member payment "id"));
    destruct (Checks.falsy (opt_member payment "email"));
    destruct (Spec.numeric (opt_member payment "amount"));
    destruct (Checks.falsy (opt_member (opt_member payment "notes") "event_id"));
    reflexivity.
Qed.

Lemma missingFields_nil (payment : value) :
  PaymentWebhook.missingFields payment = [] ->
  nullish payment = false
  /\ truthy (property payment "id") = true
  /\ truthy (property payment "email") = true
  /\ (exists n, property payment "amount" = Num n)
  /\ nullish (property payment "notes") = false
  /\ truthy (property (property payment "notes") "event_id") = true.
Proof.
  unfold PaymentWebhook.missingFields, opt_member.
  destruct (nullish payment) eqn:N; simpl;
    [intros E; discriminate E |].
  destruct (truthy (property payment "id"));
    destruct (truthy (property payment "email"));
    destruct (property payment "amount") as [| | b | n | t | l | o] eqn:A;
    destruct (nullish (property payment "notes")) eqn:N';
    simpl;
    try destruct (truthy (property (property payment "notes") "event_id"));
    simpl; intros E; try discriminate E.
  repeat split; eauto.
Qed.

Lemma member_not_nullish (v : value) (k : string) :
  nullish v = false -> member v k = Normal (property v k).
Proof. destruct v; simpl; intros; congruence. Qed.

Lemma member_Normal (v r : value) (k : string) :
  member v k = Normal r -> nullish v = false /\ r = property v k.
Proof. destruct v; simpl; intros E; inversion E; auto. Qed.

(** ** Running statements *)

Section Statements.

Context {A B : Type}.
Variables (k : A -> Eff.M B) (calls : list Supabase.call).

Lemma bind_ret (a : A) : Eff.bind (Eff.ret a) k calls = k a calls.
Proof. reflexivity. Qed.

Lemma bind_eval_Normal (a : A) :
  Eff.bind (Eff.eval (Normal a)) k calls = k a calls.
Proof. reflexivity. Qed.

Lemma bind_eval_Throw (e : exn) :
  Eff.bind (Eff.eval (Throw e)) k calls = (Eff.Raise e, calls).
Proof. reflexivity. Qed.

Lemma bind_return_ (r : Http.response) :
  Eff.bind (Eff.return_ r) k calls = (Eff.Return r, calls).
Proof. reflexivity. Qed.

End Statements.

Lemma bind_return_if {B : Type} (b : bool) (r : Http.response)
  (k : unit -> Eff.M B) (calls : list Supabase.call) :
  Eff.bind (Eff.return_if b r) k calls
  = if b then (Eff.Return r, calls) else k tt calls.
Proof. destruct b; reflexivity. Qed.

Lemma bind_insert {B : Type} (supabase : Supabase.client) (c : Supabase.call)
  (k : Supabase.reply -> Eff.M B) (calls : list Supabase.call) :
  Eff.bind (Eff.insert supabase c) k calls
  = match supabase c with
    | Normal reply => k reply (calls ++ [c])%list
    | Throw e => (Eff.Raise e, (calls ++ [c])%list)
    end.
Proof.
  unfold Eff.bind, Eff.insert. destruct (supabase c); reflexivity.
Qed.

Lemma try_catch_return (r : Http.response) (catch : exn -> Http.response)
  (calls : list Supabase.call) :
  Eff.try_catch (Eff.return_ r) catch calls = (r, calls).
Proof. reflexivity. Qed.

Lemma try_catch_calls (block : Eff.M Empty_set)
  (catch : exn -> Http.response) (calls : list Supabase.call) :
  snd (Eff.try_catch block catch calls) = snd (block calls).
Proof.
  unfold Eff.try_catch.
  destruct (block calls) as [[[] | r | e] calls']; reflexivity.
Qed.

(** ** The pipeline of the main handler, stage by stage *)

Lemma method_is_true (req : Http.request) (m : string) :
  Http.method_is req m = true <-> Http.method req = Some m.
Proof.
  unfold Http.method_is. destruct (Http.method req) as [m' |].
  - rewrite String.eqb_eq. split; congruence.
  - split; discriminate.
Qed.

Lemma env_set_true (x : option string) :
  env_set x = true <-> exists s, x = Some s /\ s <> "".
Proof.
  destruct x as [s |]; simpl.
  - rewrite negb_true_iff, String.eqb_neq. split.
    + intros N. eauto.
    + intros (s' & E & N). congruence.
  - split; [discriminate | intros (s & E & _); discriminate].
Qed.

Lemma configured_env_set (env : process_env) (u k : string) :
  configured env u k ->
  env_set (SUPABASE_URL env) = true
  /\ env_set (SUPABASE_SERVICE_ROLE_KEY env) = true.
Proof.
  intros (Eu & Ek & Nu & Nk).
  split; apply env_set_true; eauto.
Qed.

Lemma createClient_configured (h : host) (svc : Supabase.service)
  (env : process_env) (u k : string) :
  client_created h env u k ->
  Supabase.createClient h svc (SUPABASE_URL env)
    (SUPABASE_SERVICE_ROLE_KEY env)
  = Normal (svc u k).
Proof.
  intros [C Hurl]. destruct (configured_env_set _ _ _ C) as [Su Sk].
  destruct C as (Eu & Ek & _). unfold Supabase.createClient.
  rewrite Eu, Ek in *. rewrite Su, Sk, Hurl. reflexivity.
Qed.

(** [createClient] returns a client only when both credentials are set
    and it accepts the URL. *)
Lemma createClient_Normal (h : host) (svc : Supabase.service)
  (env : process_env) (supabase : Supabase.client) :
  Supabase.createClient h svc (SUPABASE_URL env)
    (SUPABASE_SERVICE_ROLE_KEY env)
  = Normal supabase ->
  exists u k, client_created h env u k /\ supabase = svc u k.
Proof.
  unfold Supabase.createClient.
  destruct (SUPABASE_URL env) as [u |] eqn:Eu; [| discriminate].
  destruct (env_set (Some u)) eqn:Su; [| discriminate]. simpl negb.
  cbv iota.
  destruct (supabaseUrl_error h u) eqn:Hurl; [discriminate |].
  destruct (SUPABASE_SERVICE_ROLE_KEY env) as [k |] eqn:Ek; [| discriminate].
  destruct (env_set (Some k)) eqn:Sk; [| discriminate]. simpl negb.
  cbv iota. intros E. inversion E.
  apply env_set_true in Su as (u' & Eu' & Nu). inversion Eu'. subst u'.
  apply env_set_true in Sk as (k' & Ek' & Nk). inversion Ek'. subst k'.
  exists u, k. repeat split; assumption.
Qed.

(** When the client cannot be created although both credentials are set,
    [createClient] throws. *)
Lemma createClient_rejects (h : host) (svc : Supabase.service)
  (env : process_env) (u k : string) (e : exn) :
  configured env u k ->
  supabaseUrl_error h u = Some e ->
  Supabase.createClient h svc (SUPABASE_URL env)
    (SUPABASE_SERVICE_ROLE_KEY env)
  = Throw e.
Proof.
  intros C Hurl. destruct (configured_env_set _ _ _ C) as [Su Sk].
  destruct C as (Eu & Ek & _). unfold Supabase.createClient.
  rewrite Eu in *. now rewrite Su, Hurl.
Qed.

Lemma strict_eq_string_true (v : value) (s : string) :
  strict_eq_string v s = true <-> v = Str s.
Proof.
  destruct v; simpl; try (split; discriminate).
  rewrite String.eqb_eq. split; congruence.
Qed.

(** The object literal of lines 162-168 on a payment that passed the four
    checks: it throws exactly when [email] is not a string. *)
Lemma registrationData_run (h : host) (payment : value) (n : number)
  (calls : list Supabase.call) :
  nullish payment = false ->
  nullish (property payment "notes") = false ->
  PaymentWebhook.registrationData payment n calls
  = match property payment "email" with
    | Str s =>
        (Eff.Continue
           {| event_id := property (property payment "notes") "event_id";
              user_email := Str (trim (toLowerCase s));
              amount := Num n;
              payment_id := property payment "id";
              status := Str "success" |}, calls)
    | _ =>
        (Eff.Raise (JsError "payment.email.toLowerCase is not a function"),
         calls)
    end.
Proof.
  intros Np Nn. unfold PaymentWebhook.registrationData, Eff.bind, Eff.eval.
  rewrite !(member_not_nullish payment) by exact Np.
  rewrite (member_not_nullish _ _ Nn).
  destruct (property payment "email"); reflexivity.
Qed.

(** What the handler does once a request has passed the method gate, the
    configuration gate, the creation of the client, the event filter and
    the four checks with a string for [email]: one insert, then the reply
    chosen from the store's answer. *)
Lemma handler_validated (h : host) (env : process_env)
  (svc : Supabase.service) (req : Http.request) (u k s : string)
  (n : number) :
  let payment := property (Http.body req) "payment" in
  let c := insert_of (registration payment s n) in
  Http.method req = Some "POST" ->
  client_created h env u k ->
  member (Http.body req) "event" = Normal (Str "payment.captured") ->
  PaymentWebhook.missingFields payment = [] ->
  property payment "email" = Str s ->
  property payment "amount" = Num n ->
  PaymentWebhook.handler h env svc req
  = match svc u k c with
    | Throw e => (PaymentWebhook.on_catch e, [c])
    | Normal reply =>
        Eff.try_catch
          match Supabase.error reply with
          | Some error => PaymentWebhook.on_error payment error
          | None =>
              PaymentWebhook.on_data h (Supabase.data reply)
                (Math_round (div100 n))
          end
          PaymentWebhook.on_catch [c]
    end.
Proof.
  intros payment c Hm Hc He Hv Hs Ha.
  destruct (missingFields_nil _ Hv) as (Np & _ & _ & _ & Nn & _).
  destruct (configured_env_set _ _ _ (proj1 Hc)) as [Su Sk].
  destruct (member_Normal _ _ _ He) as [Nb _].
  unfold PaymentWebhook.handler.
  replace (Http.method_is req "OPTIONS") with false
    by (unfold Http.method_is; now rewrite Hm).
  replace (Http.method_is req "POST") with true
    by (unfold Http.method_is; now rewrite Hm).
  simpl negb. cbv iota.
  unfold Eff.try_catch at 1, PaymentWebhook.try_block.
  rewrite bind_return_if, Su, Sk. simpl orb. cbv iota.
  rewrite (createClient_configured _ _ _ _ _ Hc), bind_eval_Normal.
  rewrite He, bind_eval_Normal. simpl strict_eq_string. simpl negb.
  cbv iota. rewrite bind_ret.
  rewrite (member_not_nullish _ "payment" Nb), bind_eval_Normal.
  fold payment. rewrite bind_return_if, Hv. simpl.
  unfold PaymentWebhook.amountInRupees.
  rewrite (member_not_nullish _ "amount" Np), Ha.
  cbv beta iota delta [ToNumber]. rewrite bind_eval_Normal.
  unfold Eff.bind at 1.
  rewrite (registrationData_run h payment _ [] Np Nn), Hs.
  rewrite bind_insert. simpl app.
  match goal with
  | |- context [svc u k ?x] => change x with c
  end.
  destruct (svc u k c) as [reply | e]; reflexivity.
Qed.

Lemma on_error_calls (payment : value) (error : Supabase.PostgrestError)
  (calls : list Supabase.call) :
  snd (PaymentWebhook.on_error payment error calls) = calls.
Proof.
  unfold PaymentWebhook.on_error.
  destruct (_ && _); [| reflexivity].
  destruct (member payment "id") as [id | e] eqn:E; reflexivity.
Qed.

Lemma on_data_calls (h : host) (data : option (list value)) (n : number)
  (calls : list Supabase.call) :
  snd (PaymentWebhook.on_data h data n calls) = calls.
Proof.
  destruct data as [[| row rest] |]; try reflexivity.
  unfold PaymentWebhook.on_data.
  destruct (member row "id") as [id | e] eqn:E; [| reflexivity].
  rewrite bind_eval_Normal.
  destruct (member row "event_id") as [ev | e] eqn:E'; reflexivity.
Qed.

(** Every store call the main handler makes comes from a POST request in a
    process whose client was created, whose event is [payment.captured],
    whose payment passed the four checks and carries a string for [email]
    (and so a number for [amount]); and the call inserts the one row built
    from that payment. *)
Lemma store_call_inv (h : host) (env : process_env) (svc : Supabase.service)
  (req : Http.request) (c : Supabase.call) :
  In c (calls_of (PaymentWebhook.handler h env svc req)) ->
  let payment := property (Http.body req) "payment" in
  exists u k s n,
    Http.method req = Some "POST"
    /\ client_created h env u k
    /\ member (Http.body req) "event" = Normal (Str "payment.captured")
    /\ PaymentWebhook.missingFields payment = []
    /\ property payment "email" = Str s
    /\ property payment "amount" = Num n
    /\ c = insert_of (registration payment s n)
    /\ calls_of (PaymentWebhook.handler h env svc req) = [c].
Proof.
  intros Hin payment.
  remember (calls_of (PaymentWebhook.handler h env svc req)) as made eqn:E.
  assert (Stop : made = [] -> False) by (intros ->; destruct Hin).
  unfold calls_of, PaymentWebhook.handler in E.
  destruct (Http.method_is req "OPTIONS") eqn:Mo; [now elim Stop |].
  destruct (Http.method_is req "POST") eqn:Mp; [| now elim Stop].
  apply method_is_true in Mp. simpl negb in E. cbv iota in E.
  rewrite try_catch_calls in E. unfold PaymentWebhook.try_block in E.
  rewrite bind_return_if in E.
  destruct (env_set (SUPABASE_URL env)) eqn:Su; [| now elim Stop].
  destruct (env_set (SUPABASE_SERVICE_ROLE_KEY env)) eqn:Sk;
    [| now elim Stop].
  simpl orb in E. cbv iota in E.
  destruct (Supabase.createClient h svc (SUPABASE_URL env)
              (SUPABASE_SERVICE_ROLE_KEY env)) as [supabase | x] eqn:Hclient;
    [| now elim Stop].
  apply createClient_Normal in Hclient as (u & k & Hc & ->).
  rewrite bind_eval_Normal in E.
  destruct (member (Http.body req) "event") as [event | e] eqn:He;
    [| now elim Stop].
  rewrite bind_eval_Normal in E.
  destruct (strict_eq_string event "payment.captured") eqn:Hev.
  2: { simpl negb in E. cbv iota in E.
       destruct (ToString h event) as [received | x];
         now elim Stop. }
  apply strict_eq_string_true in Hev. subst event.
  destruct (member_Normal _ _ _ He) as [Nb _].
  simpl negb in E. cbv iota in E. rewrite bind_ret in E.
  rewrite (member_not_nullish _ "payment" Nb), bind_eval_Normal in E.
  fold payment in E. rewrite bind_return_if in E.
  destruct (PaymentWebhook.missingFields payment) as [| name rest] eqn:Hv;
    [| now elim Stop].
  destruct (missingFields_nil _ Hv) as (Np & _ & _ & [n Ha] & Nn & _).
  change (0 <? Z.of_nat (List.length (@nil string))) with false in E.
  cbv iota in E.
  unfold PaymentWebhook.amountInRupees in E.
  rewrite (member_not_nullish _ "amount" Np), Ha in E.
  cbv beta iota delta [ToNumber] in E. rewrite bind_eval_Normal in E.
  unfold Eff.bind at 1 in E.
  rewrite (registrationData_run h payment _ [] Np Nn) in E.
  destruct (property payment "email") as [| | b | x | s | l | o] eqn:Hs;
    try now elim Stop.
  rewrite bind_insert in E. simpl app in E.
  match type of E with
  | context [svc u k ?x] =>
      change x with (insert_of (registration payment s n)) in E
  end.
  set (c0 := insert_of (registration payment s n)) in *.
  assert (Hmade : made = [c0]).
  { destruct (svc u k c0) as [reply | e]; cbv beta iota in E; [| exact E].
    destruct (Supabase.error reply) as [error |].
    - now rewrite on_error_calls in E.
    - now rewrite on_data_calls in E. }
  clear E Stop. subst made. simpl in Hin. destruct Hin as [Ec | []].
  subst c.
  exists u, k, s, n. repeat split; auto; apply Hc.
Qed.

(** At most one store call is made per request. *)
Lemma at_most_one_store_call (h : host) (env : process_env)
  (svc : Supabase.service) (req : Http.request) :
  (List.length (calls_of (PaymentWebhook.handler h env svc req)) <= 1)%nat.
Proof.
  destruct (calls_of (PaymentWebhook.handler h env svc req))
    as [| c rest] eqn:E; [simpl; lia |].
  assert (Hin : In c (calls_of (PaymentWebhook.handler h env svc req)))
    by (rewrite E; now left).
  destruct (store_call_inv _ _ _ _ _ Hin) as (u & k & s & n & H).
  destruct H as (_ & _ & _ & _ & _ & _ & _ & H1).
  rewrite E in H1. inversion H1. simpl. lia.
Qed.

Lemma configured_unique (env : process_env) (u k u' k' : string) :
  configured env u k -> configured env u' k' -> u = u' /\ k = k'.
Proof.
  intros (Eu & Ek & _) (Eu' & Ek' & _). split; congruence.
Qed.

(** A request whose insert was made is answered from the store's reply to
    that insert. *)
Lemma handler_after_insert (h : host) (env : process_env)
  (svc : Supabase.service) (req : Http.request) (c : Supabase.call)
  (u k : string) :
  let payment := property (Http.body req) "payment" in
  In c (calls_of (PaymentWebhook.handler h env svc req)) ->
  configured env u k ->
  exists s n,
    PaymentWebhook.missingFields payment = []
    /\ c = insert_of (registration payment s n)
    /\ PaymentWebhook.handler h env svc req
       = match svc u k c with
         | Throw e => (PaymentWebhook.on_catch e, [c])
         | Normal reply =>
             Eff.try_catch
               match Supabase.error reply with
               | Some error => PaymentWebhook.on_error payment error
               | None =>
                   PaymentWebhook.on_data h (Supabase.data reply)
                     (Math_round (div100 n))
               end
               PaymentWebhook.on_catch [c]
         end.
Proof.
  intros payment Hin Hc.
  destruct (store_call_inv _ _ _ _ _ Hin)
    as (u' & k' & s & n & Hm & Hc' & He & Hv & Hs & Ha & Ec & _).
  destruct (configured_unique _ _ _ _ _ Hc (proj1 Hc')) as [<- <-].
  exists s, n. split; [exact Hv |]. split; [exact Ec |].
  rewrite (handler_validated h env svc req u k s n Hm Hc' He Hv Hs Ha).
  subst c. reflexivity.
Qed.

(** ** The claims *)

(** C1.  When the insert of a request fails with a uniqueness violation on
    [payment_id] (error code 23505 and a message that contains
    [payment_id]), the handler answers 200 with [duplicate: true] and the
    notification's [payment.id], which is also the [payment_id] of the row
    it tried to insert; no second store call is made. *)
Theorem duplicate_payment_acknowledged (h : host) (env : process_env)
  (svc : Supabase.service) (req : Http.request) (c : Supabase.call)
  (u k : string) (reply : Supabase.reply) (error : Supabase.PostgrestError) :
  In c (calls_of (PaymentWebhook.handler h env svc req)) ->
  configured env u k ->
  svc u k c = Normal reply ->
  Supabase.error reply = Some error ->
  Supabase.code error = "23505" ->
  includes (Supabase.message error) "payment_id" = true ->
  let id := property (property (Http.body req) "payment") "id" in
  PaymentWebhook.handler h env svc req
  = (PaymentWebhook.json 200
       (Obj [ ("message", Str "Payment already processed");
              ("payment_id", id);
              ("duplicate", Bool true) ]),
     [c])
  /\ exists r, inserted c = Some r /\ payment_id r = id.
Proof.
  intros Hin Hc Hreply Herr Hcode Hmsg id.
  destruct (handler_after_insert h env svc req c u k Hin Hc)
    as (s & n & Hv & Ec & ->).
  destruct (missingFields_nil _ Hv) as (Np & _).
  rewrite Hreply, Herr. unfold PaymentWebhook.on_error.
  rewrite Hcode, Hmsg. simpl andb. cbv iota.
  rewrite (member_not_nullish _ "id" Np).
  split; [reflexivity |].
  subst c. eexists. split; reflexivity.
Qed.

(** C8.  When the insert of a request reports no error and returns no row
    ([data] is [null] or empty), the handler answers 500. *)
Theorem no_row_returned_is_500 (h : host) (env : process_env)
  (svc : Supabase.service) (req : Http.request) (c : Supabase.call)
  (u k : string) (reply : Supabase.reply) :
  In c (calls_of (PaymentWebhook.handler h env svc req)) ->
  configured env u k ->
  svc u k c = Normal reply ->
  Supabase.error reply = None ->
  Supabase.data reply = None \/ Supabase.data reply = Some [] ->
  PaymentWebhook.handler h env svc req
  = (PaymentWebhook.json 500
       (Obj [ ("error",
               Str "Registration may not have been saved properly") ]),
     [c]).
Proof.
  intros Hin Hc Hreply Herr Hdata.
  destruct (handler_after_insert h env svc req c u k Hin Hc)
    as (s & n & _ & _ & ->).
  rewrite Hreply, Herr.
  destruct Hdata as [-> | ->]; reflexivity.
Qed.

Lemma duplicate_payment_acknowledged_witness :
  let req := Sample.captured (Sample.a_payment 12345) in
  let out :=
    PaymentWebhook.handler Sample.a_host Sample.configured
      Sample.rejecting_duplicate req in
  In (Sample.insert 12345) (calls_of out)
  /\ out
     = (PaymentWebhook.json 200
          (Obj [ ("message", Str "Payment already processed");
                 ("payment_id", Str "pay_1");
                 ("duplicate", Bool true) ]),
        [Sample.insert 12345])
  /\ exists r, inserted (Sample.insert 12345) = Some r
               /\ payment_id r = Str "pay_1".
Proof.
  intros req out.
  assert (Hin : In (Sample.insert 12345) (calls_of out))
    by (vm_compute; left; reflexivity).
  split; [exact Hin |].
  apply (duplicate_payment_acknowledged Sample.a_host Sample.configured
           Sample.rejecting_duplicate req (Sample.insert 12345)
           "https://project.supabase.co" "service-role-key"
           {| Supabase.data := None;
              Supabase.error := Some Sample.unique_violation |}
           Sample.unique_violation).
  - exact Hin.
  - repeat split; discriminate.
  - reflexivity.
  - reflexivity.
  - reflexivity.
  - vm_compute. reflexivity.
Defined.

Lemma no_row_returned_is_500_witness :
  let req := Sample.captured (Sample.a_payment 12345) in
  let out :=
    PaymentWebhook.handler Sample.a_host Sample.configured Sample.silent req in
  In (Sample.insert 12345) (calls_of out)
  /\ Http.status (response_of out) = 500.
Proof.
  intros req out.
  assert (Hin : In (Sample.insert 12345) (calls_of out))
    by (vm_compute; left; reflexivity).
  split; [exact Hin |].
  unfold out.
  rewrite (no_row_returned_is_500 Sample.a_host Sample.configured
             Sample.silent req (Sample.insert 12345)
             "https://project.supabase.co" "service-role-key"
             {| Supabase.data := Some []; Supabase.error := None |}).
  - reflexivity.
  - exact Hin.
  - repeat split; discriminate.
  - reflexivity.
  - reflexivity.
  - right. reflexivity.
Defined.

(** A payment that is valid in the specification's sense passes the four
    checks and carries a string for [email] and a number for [amount]. *)
Lemma valid_payment_passes (payment : value) :
  Spec.missing_or_wrong_typed payment = [] ->
  PaymentWebhook.missingFields payment = []
  /\ (exists s, property payment "email" = Str s)
  /\ (exists n, property payment "amount" = Num n).
Proof.
  unfold Spec.missing_or_wrong_typed, Spec.required_fields, Spec.well_typed.
  rewrite missingFields_filter.
  unfold Spec.required_fields, Checks.rejected.
  simpl filter. unfold Spec.field. simpl String.eqb. cbv iota.
  unfold opt_member.
  destruct (nullish payment) eqn:Np; simpl; [intros E; discriminate E |].
  destruct (property payment "id") as [| | b | x | s | l | o];
    simpl; try (intros E; discriminate E).
  destruct s as [| ch0 s]; simpl; [intros E; discriminate E |].
  destruct (property payment "email") as [| | b | x | t | l | o];
    simpl; try (intros E; discriminate E).
  destruct t as [| ch t]; simpl; [intros E; discriminate E |].
  destruct (property payment "amount") as [| | b | x | a | l | o];
    simpl; try (intros E; discriminate E).
  destruct (nullish (property payment "notes")); simpl;
    [intros E; discriminate E |].
  destruct (property (property payment "notes") "event_id")
    as [| | b | y | e | l | o]; simpl; try (intros E; discriminate E).
  destruct e as [| ch' e]; simpl; [intros E; discriminate E |].
  intros _. repeat split; eauto.
Qed.

Lemma handler_validated_calls (h : host) (env : process_env)
  (svc : Supabase.service) (req : Http.request) (u k s : string)
  (n : number) :
  let payment := property (Http.body req) "payment" in
  Http.method req = Some "POST" ->
  client_created h env u k ->
  member (Http.body req) "event" = Normal (Str "payment.captured") ->
  PaymentWebhook.missingFields payment = [] ->
  property payment "email" = Str s ->
  property payment "amount" = Num n ->
  calls_of (PaymentWebhook.handler h env svc req)
  = [insert_of (registration payment s n)].
Proof.
  intros payment Hm Hc He Hv Hs Ha. unfold calls_of.
  rewrite (handler_validated h env svc req u k s n Hm Hc He Hv Hs Ha).
  fold payment.
  destruct (svc u k (insert_of (registration payment s n)))
    as [reply | e]; [| reflexivity].
  rewrite try_catch_calls.
  destruct (Supabase.error reply);
    [apply on_error_calls | apply on_data_calls].
Qed.

(** A valid notification posted to a process whose client is created is
    inserted. *)
Lemma valid_notification_inserted (h : host) (env : process_env)
  (svc : Supabase.service) (req : Http.request) (u k : string) :
  Spec.valid_notification (Http.body req) ->
  Http.method req = Some "POST" ->
  client_created h env u k ->
  exists c, calls_of (PaymentWebhook.handler h env svc req) = [c].
Proof.
  intros [He Hvalid] Hm Hc.
  destruct (valid_payment_passes _ Hvalid) as (Hv & [s Hs] & [n Ha]).
  eexists.
  exact (handler_validated_calls h env svc req u k s n Hm Hc He Hv Hs Ha).
Qed.

(** C2, as the code has it.  For a valid [payment.captured] notification
    whose amount is an integer [a] of minor units of magnitude below 2^53,
    every row handed to the store carries the integer nearest to a/100 (a
    tie going up), and such a row is handed to the store whenever the
    notification is POSTed to a process whose store client is created. *)
Theorem amount_rounded_to_nearest_major_unit (h : host) (env : process_env)
  (svc : Supabase.service) (req : Http.request) (a : Z) :
  Spec.valid_notification (Http.body req) ->
  property (property (Http.body req) "payment") "amount"
  = Num (Fin (inject_Z a)) ->
  Z.abs a < 2 ^ 53 ->
  (forall c, In c (calls_of (PaymentWebhook.handler h env svc req)) ->
     exists r n,
       inserted c = Some r /\ amount r = Num (Fin (inject_Z n))
       /\ Spec.nearest_major_unit a n)
  /\ (forall u k, Http.method req = Some "POST" ->
        client_created h env u k ->
        exists c, calls_of (PaymentWebhook.handler h env svc req) = [c]).
Proof.
  intros Hvalid Ha Hsafe. split.
  - intros c Hin.
    destruct (store_call_inv _ _ _ _ _ Hin)
      as (u & k & s & n & _ & _ & _ & _ & _ & Hn & Ec & _).
    rewrite Ha in Hn. inversion Hn. subst n c.
    eexists. exists ((a + 50) / 100). split; [reflexivity |].
    split; [| apply nearest_major_unit_div].
    cbv beta iota delta [registration amount].
    now rewrite (Math_round_div100_integer a Hsafe).
  - intros u k Hm Hc.
    exact (valid_notification_inserted h env svc req u k Hvalid Hm Hc).
Qed.

Lemma amount_rounded_to_nearest_major_unit_witness :
  let req := Sample.captured (Sample.a_payment 150) in
  let out :=
    PaymentWebhook.handler Sample.a_host Sample.configured Sample.accepting
      req in
  Spec.valid_notification (Http.body req)
  /\ (exists c r,
        calls_of out = [c] /\ inserted c = Some r
        /\ amount r = Num (Fin (inject_Z 2)))
  /\ Spec.truncated_major_unit 150 = 1.
Proof.
  intros req out.
  assert (Hvalid : Spec.valid_notification (Http.body req))
    by (split; reflexivity).
  split; [exact Hvalid |]. split; [| reflexivity].
  destruct (amount_rounded_to_nearest_major_unit Sample.a_host
              Sample.configured Sample.accepting req 150 Hvalid eq_refl)
    as [Hrow Hmade]; [reflexivity |].
  destruct (Hmade Sample.url Sample.key eq_refl) as [c Hc];
    [split; [repeat split; discriminate | reflexivity] |].
  destruct (Hrow c) as (r & n & Hr & Ha & Hn).
  - unfold out in Hc. rewrite Hc. left. reflexivity.
  - exists c, r. repeat split; auto.
    rewrite Ha. unfold Spec.nearest_major_unit in Hn.
    replace n with 2 by lia. reflexivity.
Defined.

(** C2 as stated fails beyond the integers binary64 divides exactly
    enough: for the amount 28147497671065648 the quotient computed at line
    159 is 281474976710656.5, so the row holds 281474976710657, while the
    nearest integer to the true quotient 281474976710656.48 is
    281474976710656. *)
Lemma huge_amount_rounds_away :
  let a := 28147497671065648 in
  let req := Sample.captured (Sample.a_payment a) in
  Spec.valid_notification (Http.body req)
  /\ (exists r,
        calls_of (PaymentWebhook.handler Sample.a_host Sample.configured
                    Sample.accepting req) = [insert_of r]
        /\ amount r = Num (Fin (inject_Z 281474976710657)))
  /\ Spec.nearest_major_unit a 281474976710656
  /\ ~ Spec.nearest_major_unit a 281474976710657.
Proof.
  intros a req. split; [split; reflexivity |]. split.
  - eexists. split; vm_compute; reflexivity.
  - unfold Spec.nearest_major_unit, a. split; lia.
Qed.

(** C7.  For a valid [payment.captured] notification, every row handed to
    the store carries the payer's e-mail address lower-cased and stripped
    of surrounding white space, and the notification's [notes.event_id]
    and [id] unchanged; such a row is handed to the store whenever the
    notification is POSTed to a process whose store client is created. *)
Theorem email_normalized_ids_verbatim (h : host) (env : process_env)
  (svc : Supabase.service) (req : Http.request) (email : string) :
  let payment := property (Http.body req) "payment" in
  Spec.valid_notification (Http.body req) ->
  property payment "email" = Str email ->
  (forall c, In c (calls_of (PaymentWebhook.handler h env svc req)) ->
     exists r stored,
       inserted c = Some r
       /\ user_email r = Str stored
       /\ stored = trim (toLowerCase email)
       /\ Spec.normalized_email email stored
       /\ event_id r = property (property payment "notes") "event_id"
       /\ payment_id r = property payment "id")
  /\ (forall u k, Http.method req = Some "POST" ->
        client_created h env u k ->
        exists c, calls_of (PaymentWebhook.handler h env svc req) = [c]).
Proof.
  intros payment Hvalid Hemail. split.
  - intros c Hin.
    destruct (store_call_inv _ _ _ _ _ Hin)
      as (u & k & s & n & _ & _ & _ & _ & Hs & _ & Ec & _).
    fold payment in Hs, Ec. rewrite Hemail in Hs. inversion Hs. subst s c.
    exists (registration payment email n), (trim (toLowerCase email)).
    repeat split; auto using email_normalization.
  - intros u k Hm Hc.
    exact (valid_notification_inserted h env svc req u k Hvalid Hm Hc).
Qed.

Lemma email_normalized_ids_verbatim_witness :
  let req := Sample.captured (Sample.a_payment 12345) in
  let out :=
    PaymentWebhook.handler Sample.a_host Sample.configured Sample.accepting
      req in
  Spec.valid_notification (Http.body req)
  /\ exists c r,
       calls_of out = [c] /\ inserted c = Some r
       /\ user_email r = Str "user@example.com"
       /\ event_id r = Str "event_a"
       /\ payment_id r = Str "pay_1".
Proof.
  intros req out.
  assert (Hvalid : Spec.valid_notification (Http.body req))
    by (split; reflexivity).
  split; [exact Hvalid |].
  destruct (email_normalized_ids_verbatim Sample.a_host Sample.configured
              Sample.accepting req "  User@Example.COM " Hvalid eq_refl)
    as [Hrow Hmade].
  destruct (Hmade Sample.url Sample.key eq_refl) as [c Hc];
    [split; [repeat split; discriminate | reflexivity] |].
  destruct (Hrow c) as (r & stored & Hr & Hu & Hs & _ & He & Hp).
  - unfold out in Hc. rewrite Hc. left. reflexivity.
  - exists c, r. repeat split; auto.
    rewrite Hu, Hs. reflexivity.
Defined.

(** ** Requests that are answered before the store is reached *)

Lemma handler_unconfigured (h : host) (env : process_env)
  (svc : Supabase.service) (req : Http.request) :
  Http.method req = Some "POST" ->
  unconfigured env ->
  PaymentWebhook.handler h env svc req
  = (PaymentWebhook.json 500
       (Obj [ ("error",
               Str "Server configuration error: Missing Supabase credentials")
            ]),
     []).
Proof.
  intros Hm Hu. unfold PaymentWebhook.handler.
  replace (Http.method_is req "OPTIONS") with false
    by (unfold Http.method_is; now rewrite Hm).
  replace (Http.method_is req "POST") with true
    by (unfold Http.method_is; now rewrite Hm).
  simpl negb. cbv iota.
  unfold Eff.try_catch, PaymentWebhook.try_block.
  rewrite bind_return_if.
  destruct Hu as [-> | ->]; [reflexivity |].
  now rewrite orb_true_r.
Qed.

(** A POST to a process whose client is created reaches the event filter;
    an event that converts to a string is echoed. *)
Lemma handler_configured (h : host) (env : process_env)
  (svc : Supabase.service) (req : Http.request) (u k : string)
  (event : value) (received : string) :
  Http.method req = Some "POST" ->
  client_created h env u k ->
  member (Http.body req) "event" = Normal event ->
  strict_eq_string event "payment.captured" = false ->
  ToString h event = Normal received ->
  PaymentWebhook.handler h env svc req
  = (PaymentWebhook.json 200
       (Obj [ ("message",
               Str ("Event ignored. Only payment.captured events are processed. Received: "
                    ++ received)) ]),
     []).
Proof.
  intros Hm Hc He Hne Hs.
  destruct (configured_env_set _ _ _ (proj1 Hc)) as [Su Sk].
  unfold PaymentWebhook.handler.
  replace (Http.method_is req "OPTIONS") with false
    by (unfold Http.method_is; now rewrite Hm).
  replace (Http.method_is req "POST") with true
    by (unfold Http.method_is; now rewrite Hm).
  simpl negb. cbv iota.
  unfold Eff.try_catch, PaymentWebhook.try_block.
  rewrite bind_return_if, Su, Sk. simpl orb. cbv iota.
  rewrite (createClient_configured _ _ _ _ _ Hc), bind_eval_Normal.
  rewrite He, bind_eval_Normal, Hne. simpl negb. cbv iota.
  rewrite Hs. reflexivity.
Qed.

(** A [payment.captured] POST to a process whose client is created and
    whose payment fails one of the four checks is answered 400 with the
    names pushed. *)
Lemma handler_rejects (h : host) (env : process_env)
  (svc : Supabase.service) (req : Http.request) (u k : string) :
  let payment := property (Http.body req) "payment" in
  Http.method req = Some "POST" ->
  client_created h env u k ->
  member (Http.body req) "event" = Normal (Str "payment.captured") ->
  PaymentWebhook.missingFields payment <> [] ->
  PaymentWebhook.handler h env svc req
  = (PaymentWebhook.json 400
       (Obj [ ("error", Str "Missing required payment data");
              ("missing_fields",
               Arr (map Str (PaymentWebhook.missingFields payment)));
              ("received_data", PaymentWebhook.received_data payment) ]),
     []).
Proof.
  intros payment Hm Hc He Hv.
  destruct (configured_env_set _ _ _ (proj1 Hc)) as [Su Sk].
  destruct (member_Normal _ _ _ He) as [Nb _].
  unfold PaymentWebhook.handler.
  replace (Http.method_is req "OPTIONS") with false
    by (unfold Http.method_is; now rewrite Hm).
  replace (Http.method_is req "POST") with true
    by (unfold Http.method_is; now rewrite Hm).
  simpl negb. cbv iota.
  unfold Eff.try_catch, PaymentWebhook.try_block.
  rewrite bind_return_if, Su, Sk. simpl orb. cbv iota.
  rewrite (createClient_configured _ _ _ _ _ Hc), bind_eval_Normal.
  rewrite He, bind_eval_Normal. simpl strict_eq_string. simpl negb.
  cbv iota. rewrite bind_ret.
  rewrite (member_not_nullish _ "payment" Nb), bind_eval_Normal.
  fold payment. rewrite bind_return_if.
  destruct (PaymentWebhook.missingFields payment) as [| name rest];
    [contradiction | reflexivity].
Qed.

(** C3, as the code has it.  For every [payment.captured] notification
    POSTed to a process whose store client is created (both credentials
    set, [createClient] not throwing) in which at least one required field
    is rejected (a falsy [payment.id], [payment.email] or
    [payment.notes.event_id], or a [payment.amount] that is not a number),
    the reply is 400, its [missing_fields] lists the names of all rejected
    fields in the order of the checks, and it carries the [received_data]
    snapshot; no store call is made. *)
Theorem missing_fields_enumerated (h : host) (env : process_env)
  (svc : Supabase.service) (req : Http.request) (u k : string) :
  let payment := property (Http.body req) "payment" in
  let missing := filter (Checks.rejected payment) Spec.required_fields in
  Http.method req = Some "POST" ->
  client_created h env u k ->
  member (Http.body req) "event" = Normal (Str "payment.captured") ->
  missing <> [] ->
  PaymentWebhook.handler h env svc req
  = (PaymentWebhook.json 400
       (Obj [ ("error", Str "Missing required payment data");
              ("missing_fields", Arr (map Str missing));
              ("received_data", PaymentWebhook.received_data payment) ]),
     []).
Proof.
  intros payment missing Hm Hc He Hne. subst missing.
  rewrite <- missingFields_filter in *.
  exact (handler_rejects h env svc req u k Hm Hc He Hne).
Qed.

Lemma missing_fields_enumerated_witness :
  let payment :=
    Sample.payment_of (Str "") (Str "a@b.c") (Str "100") Null in
  PaymentWebhook.handler Sample.a_host Sample.configured Sample.accepting
    (Sample.captured payment)
  = (PaymentWebhook.json 400
       (Obj [ ("error", Str "Missing required payment data");
              ("missing_fields",
               Arr [ Str "payment.id"; Str "payment.amount";
                     Str "payment.notes.event_id" ]);
              ("received_data",
               Obj [ ("hasPayment", Bool true); ("hasId", Bool false);
                     ("hasEmail", Bool true); ("hasAmount", Str "string");
                     ("hasNotes", Bool true); ("hasEventId", Bool false) ])
            ]),
     []).
Proof.
  intros payment.
  apply (missing_fields_enumerated Sample.a_host Sample.configured
           Sample.accepting (Sample.captured payment)
           "https://project.supabase.co" "service-role-key").
  - reflexivity.
  - split; [repeat split; discriminate | reflexivity].
  - reflexivity.
  - vm_compute. discriminate.
Defined.

(** C3 as stated fails: a [payment.id] of the wrong type (the number 42)
    is wrong-typed in the specification's sense, yet the 400 reply for a
    notification that also lacks [payment.amount] lists the amount only;
    and in a process without store credentials the same notification is
    answered 500 by the configuration gate. *)
Lemma wrong_typed_id_not_listed :
  let payment :=
    Sample.payment_of (Num (Fin 42)) (Str "a@b.c") Undefined (Str "event_a") in
  Spec.missing_or_wrong_typed payment = ["payment.id"; "payment.amount"]
  /\ PaymentWebhook.handler Sample.a_host Sample.configured Sample.accepting
       (Sample.captured payment)
     = (PaymentWebhook.json 400
          (Obj [ ("error", Str "Missing required payment data");
                 ("missing_fields", Arr [ Str "payment.amount" ]);
                 ("received_data",
                  Obj [ ("hasPayment", Bool true); ("hasId", Bool true);
                        ("hasEmail", Bool true);
                        ("hasAmount", Str "undefined");
                        ("hasNotes", Bool true); ("hasEventId", Bool true) ])
               ]),
        [])
  /\ Http.status
       (response_of
          (PaymentWebhook.handler Sample.a_host Sample.unconfigured
             Sample.accepting (Sample.captured payment)))
     = 500.
Proof. repeat split. Qed.

(** C4, as the code has it.  For every POST to a process whose store
    client is created (both credentials set, [createClient] not throwing)
    whose [event] is a string other than [payment.captured], the reply is
    200 with a message that ends with the event name received, and no
    store call is made. *)
Theorem other_events_ignored (h : host) (env : process_env)
  (svc : Supabase.service) (req : Http.request) (u k event : string) :
  Http.method req = Some "POST" ->
  client_created h env u k ->
  member (Http.body req) "event" = Normal (Str event) ->
  event <> "payment.captured" ->
  PaymentWebhook.handler h env svc req
  = (PaymentWebhook.json 200
       (Obj [ ("message",
               Str ("Event ignored. Only payment.captured events are processed. Received: "
                    ++ event)) ]),
     []).
Proof.
  intros Hm Hc He Hne.
  apply (handler_configured h env svc req u k (Str event) event Hm Hc He).
  - simpl. now apply String.eqb_neq.
  - reflexivity.
Qed.

Lemma other_events_ignored_witness :
  PaymentWebhook.handler Sample.a_host Sample.configured Sample.accepting
    Sample.failed
  = (PaymentWebhook.json 200
       (Obj [ ("message",
               Str "Event ignored. Only payment.captured events are processed. Received: payment.failed")
            ]),
     []).
Proof.
  apply (other_events_ignored Sample.a_host Sample.configured
           Sample.accepting Sample.failed
           "https://project.supabase.co" "service-role-key" "payment.failed").
  - reflexivity.
  - split; [repeat split; discriminate | reflexivity].
  - reflexivity.
  - discriminate.
Defined.

(** C4 as stated fails: in a process without store credentials a POST of
    another event type is answered 500 by the configuration gate, which
    precedes the event filter. *)
Lemma other_event_unconfigured_is_500 :
  Http.method Sample.failed = Some "POST"
  /\ member (Http.body Sample.failed) "event" = Normal (Str "payment.failed")
  /\ PaymentWebhook.handler Sample.a_host Sample.unconfigured
       Sample.accepting Sample.failed
     = (PaymentWebhook.json 500
          (Obj [ ("error",
                  Str "Server configuration error: Missing Supabase credentials")
               ]),
        []).
Proof. repeat split. Qed.

(** C5, as the code has it.  When either store credential is unset or
    empty, no request leads to a store call, and every POST is answered
    500 with the server configuration error. *)
Theorem unconfigured_post_is_500 (h : host) (env : process_env)
  (svc : Supabase.service) (req : Http.request) :
  unconfigured env ->
  calls_of (PaymentWebhook.handler h env svc req) = []
  /\ (Http.method req = Some "POST" ->
      PaymentWebhook.handler h env svc req
      = (PaymentWebhook.json 500
           (Obj [ ("error",
                   Str "Server configuration error: Missing Supabase credentials")
                ]),
         [])).
Proof.
  intros Hu. split.
  - destruct (calls_of (PaymentWebhook.handler h env svc req))
      as [| c rest] eqn:E; [reflexivity | exfalso].
    assert (Hin : In c (calls_of (PaymentWebhook.handler h env svc req)))
      by (rewrite E; now left).
    destruct (store_call_inv _ _ _ _ _ Hin)
      as (u & k & s & n & _ & [Hc _] & _).
    destruct (configured_env_set _ _ _ Hc) as [Su Sk].
    destruct Hu as [Hu | Hu]; congruence.
  - intros Hm. exact (handler_unconfigured h env svc req Hm Hu).
Qed.

Lemma unconfigured_post_is_500_witness :
  unconfigured Sample.unconfigured
  /\ calls_of (PaymentWebhook.handler Sample.a_host Sample.unconfigured
                 Sample.accepting (Sample.captured (Sample.a_payment 12345)))
     = []
  /\ Http.status
       (response_of
          (PaymentWebhook.handler Sample.a_host Sample.unconfigured
             Sample.accepting (Sample.captured (Sample.a_payment 12345))))
     = 500.
Proof.
  assert (Hu : unconfigured Sample.unconfigured) by (left; reflexivity).
  destruct (unconfigured_post_is_500 Sample.a_host Sample.unconfigured
              Sample.accepting (Sample.captured (Sample.a_payment 12345)) Hu)
    as [Hcalls Hpost].
  split; [exact Hu |]. split; [exact Hcalls |].
  rewrite (Hpost eq_refl). reflexivity.
Defined.

(** C5 as stated fails: without store credentials a GET is answered 405 by
    the method gate, which precedes the configuration gate. *)
Lemma unconfigured_get_is_405 :
  unconfigured Sample.unconfigured
  /\ Http.status
       (response_of
          (PaymentWebhook.handler Sample.a_host Sample.unconfigured
             Sample.accepting Sample.get))
     = 405.
Proof. split; [left |]; reflexivity. Qed.

(** C6.  A request whose method is not POST never reaches the store: an
    OPTIONS request is answered 200 with no body, and any other method
    (or none) is answered 405 with [allowed_methods: ["POST"]]. *)
Theorem non_post_methods (h : host) (env : process_env)
  (svc : Supabase.service) (req : Http.request) :
  Http.method req <> Some "POST" ->
  (Http.method req = Some "OPTIONS" ->
   PaymentWebhook.handler h env svc req = (PaymentWebhook.end_ 200, []))
  /\ (Http.method req <> Some "OPTIONS" ->
      PaymentWebhook.handler h env svc req
      = (PaymentWebhook.json 405
           (Obj [ ("error",
                   Str "Method not allowed. Only POST requests are accepted.");
                  ("allowed_methods", Arr [Str "POST"]) ]),
         []))
  /\ calls_of (PaymentWebhook.handler h env svc req) = [].
Proof.
  intros Hnp. unfold calls_of, PaymentWebhook.handler.
  destruct (Http.method_is req "OPTIONS") eqn:Mo.
  - apply method_is_true in Mo. repeat split; auto. intros N. contradiction.
  - destruct (Http.method_is req "POST") eqn:Mp.
    + apply method_is_true in Mp. contradiction.
    + repeat split; auto. intros Ho.
      apply method_is_true in Ho. congruence.
Qed.

Lemma non_post_methods_witness :
  PaymentWebhook.handler Sample.a_host Sample.configured Sample.accepting
    Sample.options
  = ({| Http.headers := PaymentWebhook.cors; Http.status := 200;
        Http.payload := Http.End |}, [])
  /\ Http.status
       (response_of
          (PaymentWebhook.handler Sample.a_host Sample.configured
             Sample.accepting Sample.get))
     = 405.
Proof.
  split.
  - apply (non_post_methods Sample.a_host Sample.configured Sample.accepting
             Sample.options); [discriminate | reflexivity].
  - destruct (non_post_methods Sample.a_host Sample.configured
                Sample.accepting Sample.get) as (_ & H405 & _);
      [discriminate |].
    rewrite H405; [reflexivity | discriminate].
Defined.

(** C9, as the code has it.  In the main handler, for every POST to a
    process whose store client is created (both credentials set,
    [createClient] not throwing) with event [payment.captured] whose body
    has no payment object ([payment] is [undefined] or [null]), nothing is
    thrown: the reply is the 400 of the validation, [missing_fields] holds
    all four required names, and no store call is made. *)
Theorem absent_payment_is_400 (h : host) (env : process_env)
  (svc : Supabase.service) (req : Http.request) (u k : string) :
  Http.method req = Some "POST" ->
  client_created h env u k ->
  member (Http.body req) "event" = Normal (Str "payment.captured") ->
  nullish (property (Http.body req) "payment") = true ->
  PaymentWebhook.handler h env svc req
  = (PaymentWebhook.json 400
       (Obj [ ("error", Str "Missing required payment data");
              ("missing_fields", Arr (map Str Spec.required_fields));
              ("received_data",
               Obj [ ("hasPayment", Bool false); ("hasId", Bool false);
                     ("hasEmail", Bool false);
                     ("hasAmount", Str "undefined");
                     ("hasNotes", Bool false); ("hasEventId", Bool false) ])
            ]),
     []).
Proof.
  intros Hm Hc He Hn.
  assert (Hall :
    PaymentWebhook.missingFields (property (Http.body req) "payment")
    = Spec.required_fields).
  { unfold PaymentWebhook.missingFields, opt_member. rewrite Hn.
    reflexivity. }
  rewrite (handler_rejects h env svc req u k Hm Hc He).
  - rewrite Hall. unfold PaymentWebhook.received_data, opt_member.
    rewrite Hn.
    destruct (property (Http.body req) "payment"); try discriminate;
      reflexivity.
  - rewrite Hall. discriminate.
Qed.

Lemma absent_payment_is_400_witness :
  Http.status
    (response_of
       (PaymentWebhook.handler Sample.a_host Sample.configured
          Sample.accepting
          {| Http.method := Some "POST";
             Http.body := Obj [ ("event", Str "payment.captured") ] |}))
  = 400
  /\ Http.status
       (response_of
          (PaymentWebhook.handler Sample.a_host Sample.configured
             Sample.accepting (Sample.captured Null)))
     = 400.
Proof.
  split.
  - rewrite (absent_payment_is_400 Sample.a_host Sample.configured
               Sample.accepting _
               "https://project.supabase.co" "service-role-key");
      try reflexivity.
    split; [repeat split; discriminate | reflexivity].
  - rewrite (absent_payment_is_400 Sample.a_host Sample.configured
               Sample.accepting _
               "https://project.supabase.co" "service-role-key");
      try reflexivity.
    split; [repeat split; discriminate | reflexivity].
Defined.

(** C9 as stated fails: in a process without store credentials the same
    request is answered 500 by the configuration gate and the validation
    is not reached. *)
Lemma absent_payment_unconfigured_is_500 :
  let req :=
    {| Http.method := Some "POST";
       Http.body := Obj [ ("event", Str "payment.captured") ] |} in
  property (Http.body req) "payment" = Undefined
  /\ PaymentWebhook.handler Sample.a_host Sample.unconfigured
       Sample.accepting req
     = (PaymentWebhook.json 500
          (Obj [ ("error",
                  Str "Server configuration error: Missing Supabase credentials")
               ]),
        []).
Proof. split; reflexivity. Qed.

(** ** The variant on an amount of zero *)

Lemma variant_rejects_zero_amount (h : host) (env : process_env)
  (svc : Supabase.service) (req : Http.request) (u k : string) :
  let payment := property (Http.body req) "payment" in
  Http.method req = Some "POST" ->
  client_created h env u k ->
  member (Http.body req) "event" = Normal (Str "payment.captured") ->
  property payment "amount" = Num (Fin 0) ->
  Variant.handler h env svc req
  = (Variant.json 400
       (Obj [ ("error",
               Str "Missing required payment data: id, email, amount, or notes.event_id")
            ]),
     []).
Proof.
  intros payment Hm Hc He Ha.
  destruct (member_Normal _ _ _ He) as [Nb _].
  assert (Np : nullish payment = false).
  { destruct payment; simpl in *; try discriminate; reflexivity. }
  unfold Variant.handler.
  replace (Http.method_is req "POST") with true
    by (unfold Http.method_is; now rewrite Hm).
  simpl negb. cbv iota.
  unfold Eff.try_catch, Variant.try_block.
  rewrite (createClient_configured _ _ _ _ _ Hc), bind_eval_Normal.
  rewrite He, bind_eval_Normal, bind_return_if. simpl negb. cbv iota.
  rewrite (member_not_nullish _ "payment" Nb), bind_eval_Normal.
  fold payment.
  assert (Hmiss : Variant.missing payment = Normal true).
  { unfold Variant.missing.
    rewrite !(member_not_nullish payment) by exact Np. rewrite Ha.
    destruct (truthy (property payment "id")); simpl; [| reflexivity].
    destruct (truthy (property payment "email")); reflexivity. }
  rewrite Hmiss, bind_eval_Normal, bind_return_if. reflexivity.
Qed.

(** Once the insert is made the main handler answers 200 or 500. *)
Lemma inserted_reply_status (h : host) (env : process_env)
  (svc : Supabase.service) (req : Http.request) (c : Supabase.call) :
  In c (calls_of (PaymentWebhook.handler h env svc req)) ->
  Http.status (response_of (PaymentWebhook.handler h env svc req)) = 200
  \/ Http.status (response_of (PaymentWebhook.handler h env svc req)) = 500.
Proof.
  intros Hin.
  destruct (store_call_inv _ _ _ _ _ Hin)
    as (u & k & s0 & n0 & _ & [Hc _] & _).
  destruct (handler_after_insert h env svc req c u k Hin Hc)
    as (s & n & _ & _ & ->).
  unfold response_of.
  destruct (svc u k c) as [reply | e]; [| now right].
  unfold Eff.try_catch.
  destruct (Supabase.error reply) as [error |].
  - unfold PaymentWebhook.on_error.
    destruct (_ && _); [| now right].
    destruct (member _ "id") as [id | e]; [now left | now right].
  - unfold PaymentWebhook.on_data.
    destruct (Supabase.data reply) as [[| row rest] |]; try now right.
    destruct (member row "id") as [id | e]; [| now right].
    rewrite bind_eval_Normal.
    destruct (member row "event_id") as [ev | e]; [now left | now right].
Qed.

(** C10.  On a [payment.captured] notification whose amount is exactly 0
    and whose other fields are valid, POSTed to a process whose store
    client is created, the main handler's checks do not list
    [payment.amount] and it inserts a row with amount 0 (so its reply is
    not a 400), while the variant answers 400 without a store call. *)
Theorem zero_amount_separates_handlers (h : host) (env : process_env)
  (svc : Supabase.service) (req : Http.request) (u k : string) :
  let payment := property (Http.body req) "payment" in
  Http.method req = Some "POST" ->
  client_created h env u k ->
  Spec.valid_notification (Http.body req) ->
  property payment "amount" = Num (Fin 0) ->
  ~ In "payment.amount" (PaymentWebhook.missingFields payment)
  /\ (exists c r,
        calls_of (PaymentWebhook.handler h env svc req) = [c]
        /\ inserted c = Some r /\ amount r = Num (Fin 0))
  /\ Http.status (response_of (PaymentWebhook.handler h env svc req)) <> 400
  /\ Variant.handler h env svc req
     = (Variant.json 400
          (Obj [ ("error",
                  Str "Missing required payment data: id, email, amount, or notes.event_id")
               ]),
        []).
Proof.
  intros payment Hm Hc [He Hvalid] Ha.
  destruct (valid_payment_passes _ Hvalid) as (Hv & [s Hs] & _).
  fold payment in Hv, Hs.
  pose proof (handler_validated_calls h env svc req u k s (Fin 0)
                Hm Hc He Hv Hs Ha) as Hcalls.
  pose proof (variant_rejects_zero_amount h env svc req u k Hm Hc He Ha)
    as Hvar.
  fold payment in Hcalls.
  split; [rewrite Hv; intros [] |].
  split.
  - exists (insert_of (registration payment s (Fin 0))),
           (registration payment s (Fin 0)).
    repeat split; auto.
  - split; [| exact Hvar].
    destruct (inserted_reply_status h env svc req
                (insert_of (registration payment s (Fin 0))))
      as [H | H]; [rewrite Hcalls; now left | |]; rewrite H; discriminate.
Qed.

Lemma zero_amount_separates_handlers_witness :
  let req := Sample.captured (Sample.a_payment 0) in
  Http.status
    (response_of
       (PaymentWebhook.handler Sample.a_host Sample.configured
          Sample.accepting req))
  = 200
  /\ Http.status
       (response_of
          (Variant.handler Sample.a_host Sample.configured Sample.accepting
             req))
     = 400
  /\ Http.status
       (response_of
          (PaymentWebhook.handler Sample.a_host Sample.configured
             Sample.accepting req))
     <> 400.
Proof.
  intros req.
  destruct (zero_amount_separates_handlers Sample.a_host Sample.configured
              Sample.accepting req Sample.url Sample.key)
    as (_ & _ & Hne & Hvar).
  - reflexivity.
  - split; [repeat split; discriminate | reflexivity].
  - split; reflexivity.
  - reflexivity.
  - split; [reflexivity |]. split; [| exact Hne].
    rewrite Hvar. reflexivity.
Defined.

(** ** Worked examples *)

Example rounds_12345 :
  exists r,
    calls_of (PaymentWebhook.handler Sample.a_host Sample.configured
                Sample.accepting (Sample.captured (Sample.a_payment 12345)))
    = [insert_of r]
    /\ amount r = Num (Fin (inject_Z 123)).
Proof. eexists. split; reflexivity. Qed.

Example rounds_10000 :
  Math_round (div100 (Fin (inject_Z 10000))) = Fin (inject_Z 100).
Proof. reflexivity. Qed.

Example rounds_negative_tie_up :
  Math_round (div100 (Fin (inject_Z (-150)))) = Fin (inject_Z (-1)).
Proof. reflexivity. Qed.

Example accepted_payment_reply :
  response_of
    (PaymentWebhook.handler Sample.a_host Sample.configured Sample.accepting
       (Sample.captured (Sample.a_payment 12345)))
  = PaymentWebhook.json 200
      (Obj [ ("message",
              Str "Payment processed and registration saved successfully");
             ("registration_id", Str "row-1");
             ("event_id", Str "event_a");
             ("amount_rupees", Num (Fin (inject_Z 123)));
             ("timestamp", Str "2025-01-01T00:00:00.000Z") ]).
Proof. reflexivity. Qed.

(** A truthy [email] that is not a string passes the four checks and then
    fails in [toLowerCase]: the reply is the 500 of [catch] and the store
    is not called. *)
Example numeric_email_is_caught :
  PaymentWebhook.handler Sample.a_host Sample.configured Sample.accepting
    (Sample.captured
       (Sample.payment_of (Str "pay_1") (Num (Fin 7)) (Sample.int 100)
          (Str "event_a")))
  = (PaymentWebhook.json 500
       (Obj [ ("error",
               Str "Internal server error while processing webhook");
              ("details",
               Str "payment.email.toLowerCase is not a function") ]),
     []).
Proof. reflexivity. Qed.

(** A request without a body is caught as well. *)
Example absent_body_is_caught :
  Http.status
    (response_of
       (PaymentWebhook.handler Sample.a_host Sample.configured
          Sample.accepting
          {| Http.method := Some "POST"; Http.body := Undefined |}))
  = 500.
Proof. reflexivity. Qed.

(** ** The variant, for comparison *)

(** It has no branch for a duplicate: the uniqueness violation is a 500. *)
Example variant_duplicate_is_500 :
  response_of
    (Variant.handler Sample.a_host Sample.configured
       Sample.rejecting_duplicate (Sample.captured (Sample.a_payment 12345)))
  = Variant.json 500
      (Obj [ ("error", Str "Failed to save registration data");
             ("details",
              Str "duplicate key value violates unique constraint eventsregistrations_payment_id_key")
           ]).
Proof. reflexivity. Qed.

(** It stores the quotient as it is: 12345 minor units become the
    binary64 value nearest to 123.45. *)
Example variant_amount_not_rounded :
  exists r,
    calls_of (Variant.handler Sample.a_host Sample.configured
                Sample.accepting (Sample.captured (Sample.a_payment 12345)))
    = [insert_of r]
    /\ amount r = Num (Fin (8687021468732621 # 70368744177664)).
Proof. eexists. split; vm_compute; reflexivity. Qed.

(** It stores the e-mail address as received. *)
Example variant_email_verbatim :
  exists r,
    calls_of (Variant.handler Sample.a_host Sample.configured
                Sample.accepting (Sample.captured (Sample.a_payment 12345)))
    = [insert_of r]
    /\ user_email r = Str "  User@Example.COM ".
Proof. eexists. split; reflexivity. Qed.

(** It answers a preflight like any other method. *)
Example variant_options_is_405 :
  Variant.handler Sample.a_host Sample.configured Sample.accepting
    Sample.options
  = (Variant.json 405
       (Obj [ ("error",
               Str "Method not allowed. Only POST requests are accepted.") ]),
     []).
Proof. reflexivity. Qed.

(** Without credentials [createClient] throws and [catch] answers 500. *)
Example variant_unconfigured_is_caught :
  Variant.handler Sample.a_host Sample.unconfigured Sample.accepting
    (Sample.captured (Sample.a_payment 12345))
  = (Variant.json 500
       (Obj [ ("error",
               Str "Internal server error while processing webhook");
              ("details", Str "supabaseUrl is required.") ]),
     []).
Proof. reflexivity. Qed.

(** A success without a row makes [data[0].id] throw: 500 again. *)
Example variant_no_row_is_caught :
  Http.status
    (response_of
       (Variant.handler Sample.a_host Sample.configured Sample.silent
          (Sample.captured (Sample.a_payment 12345))))
  = 500.
Proof. reflexivity. Qed.

(** * Further properties of the main handler *)

(** ** What reaches the store *)

(** X1.  Whatever the request, the process environment and the store, the
    main handler makes no store call or exactly one; the one call inserts
    a single row into [eventsregistrations], and the row's [status] is
    [success], its [user_email] a string and its [amount] a number. *)
Theorem store_call_shape (h : host) (env : process_env)
  (svc : Supabase.service) (req : Http.request) :
  calls_of (PaymentWebhook.handler h env svc req) = []
  \/ exists r s n,
       calls_of (PaymentWebhook.handler h env svc req)
       = [ {| Supabase.table := "eventsregistrations";
              Supabase.rows := [r] |} ]
       /\ status r = Str "success"
       /\ user_email r = Str s
       /\ amount r = Num n.
Proof.
  destruct (calls_of (PaymentWebhook.handler h env svc req))
    as [| c rest] eqn:E; [now left | right].
  assert (Hin : In c (calls_of (PaymentWebhook.handler h env svc req)))
    by (rewrite E; now left).
  destruct (store_call_inv _ _ _ _ _ Hin)
    as (u & k & s & n & _ & _ & _ & _ & _ & _ & Ec & Hone).
  rewrite E in Hone. inversion Hone. subst rest c.
  eexists. exists (trim (toLowerCase s)). eexists.
  repeat split; reflexivity.
Qed.

(** ** Replies after the insert *)

(** X2.  When the insert fails for any reason other than the duplicate
    (a code other than 23505, or a message without [payment_id]), the
    reply is 500 and carries the store's message and code. *)
Theorem other_store_error_is_500 (h : host) (env : process_env)
  (svc : Supabase.service) (req : Http.request) (c : Supabase.call)
  (u k : string) (reply : Supabase.reply) (error : Supabase.PostgrestError) :
  In c (calls_of (PaymentWebhook.handler h env svc req)) ->
  configured env u k ->
  svc u k c = Normal reply ->
  Supabase.error reply = Some error ->
  Supabase.code error <> "23505"
  \/ includes (Supabase.message error) "payment_id" = false ->
  PaymentWebhook.handler h env svc req
  = (PaymentWebhook.json 500
       (Obj [ ("error", Str "Failed to save registration data");
              ("details", Str (Supabase.message error));
              ("code", Str (Supabase.code error)) ]),
     [c]).
Proof.
  intros Hin Hc Hreply Herr Hother.
  destruct (handler_after_insert h env svc req c u k Hin Hc)
    as (s & n & _ & _ & ->).
  rewrite Hreply, Herr. unfold PaymentWebhook.on_error.
  assert (Hcond :
    String.eqb (Supabase.code error) "23505"
    && includes (Supabase.message error) "payment_id" = false).
  { destruct Hother as [Hcode | Hmsg].
    - apply String.eqb_neq in Hcode. now rewrite Hcode.
    - rewrite Hmsg. apply andb_false_r. }
  rewrite Hcond. reflexivity.
Qed.

Lemma other_store_error_is_500_witness :
  PaymentWebhook.handler Sample.a_host Sample.configured Sample.failing
    (Sample.captured (Sample.a_payment 12345))
  = (PaymentWebhook.json 500
       (Obj [ ("error", Str "Failed to save registration data");
              ("details",
               Str "canceling statement due to statement timeout");
              ("code", Str "57014") ]),
     [Sample.insert 12345]).
Proof.
  apply (other_store_error_is_500 Sample.a_host Sample.configured
           Sample.failing (Sample.captured (Sample.a_payment 12345))
           (Sample.insert 12345) Sample.url Sample.key
           {| Supabase.data := None; Supabase.error := Some Sample.timeout |}
           Sample.timeout).
  - vm_compute. left. reflexivity.
  - repeat split; discriminate.
  - reflexivity.
  - reflexivity.
  - left. discriminate.
Defined.

(** X3.  When the insert succeeds and returns at least one row, the reply
    is 200 and reports the [id] and [event_id] of the first row returned
    by the store, the amount of the row that was inserted and the time of
    processing. *)
Theorem stored_row_acknowledged (h : host) (env : process_env)
  (svc : Supabase.service) (req : Http.request) (c : Supabase.call)
  (u k : string) (reply : Supabase.reply) (row : value) (rest : list value) :
  In c (calls_of (PaymentWebhook.handler h env svc req)) ->
  configured env u k ->
  svc u k c = Normal reply ->
  Supabase.error reply = None ->
  Supabase.data reply = Some (row :: rest) ->
  nullish row = false ->
  exists r,
    inserted c = Some r
    /\ PaymentWebhook.handler h env svc req
       = (PaymentWebhook.json 200
            (Obj [ ("message",
                    Str "Payment processed and registration saved successfully");
                   ("registration_id", property row "id");
                   ("event_id", property row "event_id");
                   ("amount_rupees", amount r);
                   ("timestamp", Str (Date_toISOString h)) ]),
          [c]).
Proof.
  intros Hin Hc Hreply Herr Hdata Hrow.
  destruct (handler_after_insert h env svc req c u k Hin Hc)
    as (s & n & _ & Ec & ->).
  rewrite Hreply, Herr, Hdata. unfold PaymentWebhook.on_data.
  unfold Eff.try_catch.
  rewrite (member_not_nullish row "id" Hrow), bind_eval_Normal.
  rewrite (member_not_nullish row "event_id" Hrow), bind_eval_Normal.
  subst c. eexists. split; reflexivity.
Qed.

Lemma stored_row_acknowledged_witness :
  exists r,
    inserted (Sample.insert 12345) = Some r
    /\ PaymentWebhook.handler Sample.a_host Sample.configured
         Sample.accepting (Sample.captured (Sample.a_payment 12345))
       = (PaymentWebhook.json 200
            (Obj [ ("message",
                    Str "Payment processed and registration saved successfully");
                   ("registration_id", Str "row-1");
                   ("event_id", Str "event_a");
                   ("amount_rupees", amount r);
                   ("timestamp", Str "2025-01-01T00:00:00.000Z") ]),
          [Sample.insert 12345]).
Proof.
  apply (stored_row_acknowledged Sample.a_host Sample.configured
           Sample.accepting (Sample.captured (Sample.a_payment 12345))
           (Sample.insert 12345) Sample.url Sample.key
           {| Supabase.data := Some [Sample.stored_row];
              Supabase.error := None |}
           Sample.stored_row []).
  - vm_compute. left. reflexivity.
  - repeat split; discriminate.
  - reflexivity.
  - reflexivity.
  - reflexivity.
  - reflexivity.
Defined.

(** X4.  When the awaited insert rejects, [catch] answers 500 with the
    error's message (or [Unknown error occurred] for a value that is not
    an [Error]); the call is not repeated. *)
Theorem store_rejection_is_caught (h : host) (env : process_env)
  (svc : Supabase.service) (req : Http.request) (c : Supabase.call)
  (u k : string) (e : exn) :
  In c (calls_of (PaymentWebhook.handler h env svc req)) ->
  configured env u k ->
  svc u k c = Throw e ->
  PaymentWebhook.handler h env svc req
  = (PaymentWebhook.json 500
       (Obj [ ("error",
               Str "Internal server error while processing webhook");
              ("details",
               Str match e with
                   | JsError message => message
                   | Thrown _ => "Unknown error occurred"
                   end) ]),
     [c]).
Proof.
  intros Hin Hc Hthrow.
  destruct (handler_after_insert h env svc req c u k Hin Hc)
    as (s & n & _ & _ & ->).
  rewrite Hthrow. reflexivity.
Qed.

Lemma store_rejection_is_caught_witness :
  PaymentWebhook.handler Sample.a_host Sample.configured Sample.unreachable
    (Sample.captured (Sample.a_payment 12345))
  = (PaymentWebhook.json 500
       (Obj [ ("error",
               Str "Internal server error while processing webhook");
              ("details", Str "fetch failed") ]),
     [Sample.insert 12345]).
Proof.
  apply (store_rejection_is_caught Sample.a_host Sample.configured
           Sample.unreachable (Sample.captured (Sample.a_payment 12345))
           (Sample.insert 12345) Sample.url Sample.key
           (JsError "fetch failed")).
  - vm_compute. left. reflexivity.
  - repeat split; discriminate.
  - reflexivity.
Defined.

(** ** Exceptions inside [try] *)

Ltac pass_method_gate Hm :=
  unfold PaymentWebhook.handler;
  replace (Http.method_is _ "OPTIONS") with false
    by (unfold Http.method_is; now rewrite Hm);
  replace (Http.method_is _ "POST") with true
    by (unfold Http.method_is; now rewrite Hm);
  simpl negb; cbv iota;
  unfold Eff.try_catch, PaymentWebhook.try_block.

Ltac pass_configuration_gate Hc :=
  let Su := fresh "Su" in
  let Sk := fresh "Sk" in
  destruct (configured_env_set _ _ _ Hc) as [Su Sk];
  rewrite bind_return_if, Su, Sk; simpl orb; cbv iota.

(** With both credentials set, [createClient] throws, and [catch] answers,
    or the client is created. *)
Ltac create_client h u Hc Hurl :=
  destruct (supabaseUrl_error h u) eqn:Hurl;
  [ rewrite (createClient_rejects _ _ _ _ _ _ Hc Hurl), bind_eval_Throw
  | rewrite (createClient_configured _ _ _ _ _ (conj Hc Hurl)),
      bind_eval_Normal ].

Ltac pass_event_filter He :=
  rewrite He, bind_eval_Normal; simpl strict_eq_string; simpl negb;
  cbv iota; rewrite bind_ret.

(** X5.  A payment whose [email] is truthy but not a string passes the
    four checks and then makes [toLowerCase] throw: the reply is the 500
    of [catch], with the thrown error's message as [details], and the
    store is never called. *)
Theorem non_string_email_is_caught (h : host) (env : process_env)
  (svc : Supabase.service) (req : Http.request) (u k : string) :
  let payment := property (Http.body req) "payment" in
  Http.method req = Some "POST" ->
  configured env u k ->
  member (Http.body req) "event" = Normal (Str "payment.captured") ->
  PaymentWebhook.missingFields payment = [] ->
  (forall s, property payment "email" <> Str s) ->
  exists details,
    PaymentWebhook.handler h env svc req
    = (PaymentWebhook.json 500
         (Obj [ ("error",
                 Str "Internal server error while processing webhook");
                ("details", Str details) ]),
       []).
Proof.
  intros payment Hm Hc He Hv Hs.
  destruct (missingFields_nil _ Hv) as (Np & _ & _ & [n Ha] & Nn & _).
  destruct (member_Normal _ _ _ He) as [Nb _].
  pass_method_gate Hm. pass_configuration_gate Hc.
  create_client h u Hc Hurl; [eexists; reflexivity |].
  exists "payment.email.toLowerCase is not a function".
  pass_event_filter He.
  rewrite (member_not_nullish _ "payment" Nb), bind_eval_Normal.
  fold payment. rewrite bind_return_if, Hv.
  change (0 <? Z.of_nat (List.length (@nil string))) with false. cbv iota.
  unfold PaymentWebhook.amountInRupees.
  rewrite (member_not_nullish _ "amount" Np), Ha.
  cbv beta iota delta [ToNumber]. rewrite bind_eval_Normal.
  unfold Eff.bind at 1.
  rewrite (registrationData_run h payment _ [] Np Nn).
  destruct (property payment "email") as [| | b | x | s | l | o];
    try reflexivity.
  now elim (Hs s).
Qed.

Lemma non_string_email_is_caught_witness :
  PaymentWebhook.missingFields Sample.numeric_email = []
  /\ exists details,
       PaymentWebhook.handler Sample.a_host Sample.configured
         Sample.accepting (Sample.captured Sample.numeric_email)
       = (PaymentWebhook.json 500
            (Obj [ ("error",
                    Str "Internal server error while processing webhook");
                   ("details", Str details) ]),
          []).
Proof.
  split; [reflexivity |].
  apply (non_string_email_is_caught Sample.a_host Sample.configured
           Sample.accepting (Sample.captured Sample.numeric_email)
           Sample.url Sample.key).
  - reflexivity.
  - repeat split; discriminate.
  - reflexivity.
  - reflexivity.
  - intros s. discriminate.
Defined.

(** X6.  A POST without a body ([req.body] is [undefined] or [null]) makes
    the read of [payload.event] throw: the reply is the 500 of [catch],
    with the thrown error's message as [details], and the store is never
    called. *)
Theorem absent_body_is_500 (h : host) (env : process_env)
  (svc : Supabase.service) (req : Http.request) (u k : string) :
  Http.method req = Some "POST" ->
  configured env u k ->
  nullish (Http.body req) = true ->
  exists details,
    PaymentWebhook.handler h env svc req
    = (PaymentWebhook.json 500
         (Obj [ ("error",
                 Str "Internal server error while processing webhook");
                ("details", Str details) ]),
       []).
Proof.
  intros Hm Hc Hb.
  pass_method_gate Hm. pass_configuration_gate Hc.
  create_client h u Hc Hurl; [eexists; reflexivity |].
  destruct (Http.body req); try discriminate Hb;
    eexists; reflexivity.
Qed.

Lemma absent_body_is_500_witness :
  exists details,
    PaymentWebhook.handler Sample.a_host Sample.configured Sample.accepting
      {| Http.method := Some "POST"; Http.body := Undefined |}
    = (PaymentWebhook.json 500
         (Obj [ ("error",
                 Str "Internal server error while processing webhook");
                ("details", Str details) ]),
       []).
Proof.
  apply (absent_body_is_500 Sample.a_host Sample.configured Sample.accepting
           {| Http.method := Some "POST"; Http.body := Undefined |}
           Sample.url Sample.key).
  - reflexivity.
  - repeat split; discriminate.
  - reflexivity.
Defined.

(** X7.  A POST, to a process whose store client is created, whose body
    carries no [event] at all (an object without the key, or a body that
    is not an object) is acknowledged like any other event: 200 with a
    message that ends in [undefined], and no store call. *)
Theorem missing_event_is_ignored (h : host) (env : process_env)
  (svc : Supabase.service) (req : Http.request) (u k : string) :
  Http.method req = Some "POST" ->
  client_created h env u k ->
  nullish (Http.body req) = false ->
  property (Http.body req) "event" = Undefined ->
  PaymentWebhook.handler h env svc req
  = (PaymentWebhook.json 200
       (Obj [ ("message",
               Str "Event ignored. Only payment.captured events are processed. Received: undefined")
            ]),
     []).
Proof.
  intros Hm Hc Hb He.
  rewrite (handler_configured h env svc req u k Undefined "undefined"
             Hm Hc).
  - reflexivity.
  - rewrite (member_not_nullish _ "event" Hb). now rewrite He.
  - reflexivity.
  - reflexivity.
Qed.

Lemma missing_event_is_ignored_witness :
  PaymentWebhook.handler Sample.a_host Sample.configured Sample.accepting
    {| Http.method := Some "POST"; Http.body := Str "ping" |}
  = (PaymentWebhook.json 200
       (Obj [ ("message",
               Str "Event ignored. Only payment.captured events are processed. Received: undefined")
            ]),
     []).
Proof.
  apply (missing_event_is_ignored Sample.a_host Sample.configured
           Sample.accepting
           {| Http.method := Some "POST"; Http.body := Str "ping" |}
           Sample.url Sample.key).
  - reflexivity.
  - split; [repeat split; discriminate | reflexivity].
  - reflexivity.
  - reflexivity.
Defined.

(** ** Every reply is structured *)

Lemma json_structured (c : Z) (v : value) :
  In c [200; 400; 405; 500] ->
  structured PaymentWebhook.cors (PaymentWebhook.json c v).
Proof.
  intros Hc. split; [reflexivity |]. split; [exact Hc |].
  eexists. reflexivity.
Qed.

Lemma on_catch_structured (e : exn) :
  structured PaymentWebhook.cors (PaymentWebhook.on_catch e).
Proof. apply json_structured. simpl. tauto. Qed.

Lemma on_error_well_behaved (payment : value)
  (error : Supabase.PostgrestError) (calls : list Supabase.call) :
  well_behaved PaymentWebhook.cors
    (PaymentWebhook.on_error payment error calls).
Proof.
  unfold well_behaved, PaymentWebhook.on_error.
  destruct (_ && _).
  - destruct (member payment "id") as [id | e]; simpl; auto.
    apply json_structured. simpl. tauto.
  - apply json_structured. simpl. tauto.
Qed.

Lemma on_data_well_behaved (h : host) (data : option (list value))
  (n : number) (calls : list Supabase.call) :
  well_behaved PaymentWebhook.cors (PaymentWebhook.on_data h data n calls).
Proof.
  unfold well_behaved, PaymentWebhook.on_data.
  destruct data as [[| row rest] |];
    try (apply json_structured; simpl; tauto).
  destruct (member row "id") as [id | e]; simpl; auto.
  rewrite bind_eval_Normal.
  destruct (member row "event_id") as [ev | e]; simpl; auto.
  apply json_structured. simpl. tauto.
Qed.

(** The object literal of lines 162-168 never returns from the handler:
    it yields the row or throws. *)
Lemma registrationData_continues (payment : value) (n : number)
  (calls : list Supabase.call) :
  match fst (PaymentWebhook.registrationData payment n calls) with
  | Eff.Return _ => False
  | _ => True
  end.
Proof.
  unfold PaymentWebhook.registrationData.
  destruct (member payment "notes") as [notes | e]; simpl; auto.
  rewrite bind_eval_Normal.
  destruct (member notes "event_id") as [ev | e]; simpl; auto.
  rewrite bind_eval_Normal.
  destruct (member payment "email") as [email | e]; simpl; auto.
  rewrite bind_eval_Normal.
  destruct (toLowerCase_trim "payment.email" email) as [s | e]; simpl; auto.
  rewrite bind_eval_Normal.
  destruct (member payment "id") as [id | e]; simpl; auto.
Qed.

Lemma try_block_well_behaved (h : host) (env : process_env)
  (svc : Supabase.service) (req : Http.request) :
  well_behaved PaymentWebhook.cors (PaymentWebhook.try_block h env svc req []).
Proof.
  unfold PaymentWebhook.try_block.
  rewrite bind_return_if.
  destruct (negb _ || negb _);
    [apply json_structured; simpl; tauto |].
  destruct (Supabase.createClient h svc _ _) as [supabase | e];
    [rewrite bind_eval_Normal | exact I].
  destruct (member (Http.body req) "event") as [event | e];
    [rewrite bind_eval_Normal | exact I].
  destruct (negb _).
  { destruct (ToString h event) as [received | x];
      unfold well_behaved, Eff.bind, Eff.eval, Eff.return_; simpl;
      [apply json_structured; simpl; tauto | exact I]. }
  rewrite bind_ret.
  destruct (member (Http.body req) "payment") as [payment | e];
    [rewrite bind_eval_Normal | exact I].
  rewrite bind_return_if.
  destruct (0 <? _); [apply json_structured; simpl; tauto |].
  destruct (PaymentWebhook.amountInRupees h payment) as [n | e];
    [rewrite bind_eval_Normal | exact I].
  unfold Eff.bind at 1.
  pose proof (registrationData_continues payment n []) as Hrow.
  destruct (PaymentWebhook.registrationData payment n [])
    as [[row | r | e] calls]; simpl in Hrow; [| contradiction | exact I].
  rewrite bind_insert.
  destruct (supabase _) as [reply | e]; [| exact I].
  destruct (Supabase.error reply) as [error |].
  - apply on_error_well_behaved.
  - apply on_data_well_behaved.
Qed.

(** X8.  Whatever the request, the process environment and the store, the
    main handler answers: an OPTIONS request with an empty 200, every
    other request with a JSON body and one of the statuses 200, 400, 405
    and 500; every reply carries the three CORS headers. *)
Theorem every_reply_is_structured (h : host) (env : process_env)
  (svc : Supabase.service) (req : Http.request) :
  let reply := response_of (PaymentWebhook.handler h env svc req) in
  Http.headers reply
  = [ ("Access-Control-Allow-Origin", "*");
      ("Access-Control-Allow-Methods", "POST");
      ("Access-Control-Allow-Headers", "Content-Type") ]
  /\ (Http.method req = Some "OPTIONS" ->
      Http.status reply = 200 /\ Http.payload reply = Http.End)
  /\ (Http.method req <> Some "OPTIONS" ->
      In (Http.status reply) [200; 400; 405; 500]
      /\ exists v, Http.payload reply = Http.Json v).
Proof.
  intros reply. subst reply. unfold response_of, PaymentWebhook.handler.
  destruct (Http.method_is req "OPTIONS") eqn:Mo.
  - apply method_is_true in Mo. split; [reflexivity |].
    split; [intros _; split; reflexivity | intros N; contradiction].
  - assert (No : Http.method req <> Some "OPTIONS").
    { intros Ho. apply method_is_true in Ho. congruence. }
    assert (Hs : structured PaymentWebhook.cors
                   (fst (if negb (Http.method_is req "POST")
                         then (PaymentWebhook.json 405
                                 (Obj [ ("error",
                                         Str "Method not allowed. Only POST requests are accepted.");
                                        ("allowed_methods",
                                         Arr [Str "POST"]) ]),
                               [])
                         else Eff.try_catch
                                (PaymentWebhook.try_block h env svc req)
                                PaymentWebhook.on_catch []))).
    { destruct (negb _); [apply json_structured; simpl; tauto |].
      pose proof (try_block_well_behaved h env svc req) as Hwb.
      unfold well_behaved in Hwb. unfold Eff.try_catch.
      destruct (PaymentWebhook.try_block h env svc req [])
        as [[[] | r | e] calls]; simpl in *;
        [exact Hwb | apply on_catch_structured]. }
    destruct Hs as (Hh & Hc & Hv).
    split; [exact Hh |].
    split; [intros Ho; contradiction | intros _; split; assumption].
Qed.

Lemma every_reply_is_structured_witness :
  Http.status
    (response_of
       (PaymentWebhook.handler Sample.a_host Sample.configured
          Sample.accepting Sample.options))
  = 200
  /\ In (Http.status
           (response_of
              (PaymentWebhook.handler Sample.a_host Sample.configured
                 Sample.unreachable
                 (Sample.captured (Sample.a_payment 12345)))))
        [200; 400; 405; 500].
Proof.
  split.
  - apply (every_reply_is_structured Sample.a_host Sample.configured
             Sample.accepting Sample.options). reflexivity.
  - apply (every_reply_is_structured Sample.a_host Sample.configured
             Sample.unreachable (Sample.captured (Sample.a_payment 12345))).
    discriminate.
Defined.

(** ** The diagnostic snapshot *)

(** X9.  In the 400 reply the snapshot and the list never disagree: a
    required field is named in [missing_fields] exactly when its flag in
    [received_data] is [false] (for the amount: when [hasAmount] is not
    ["number"]). *)
Theorem snapshot_agrees_with_missing_fields (payment : value) :
  let missing := PaymentWebhook.missingFields payment in
  let snapshot := PaymentWebhook.received_data payment in
  (In "payment.id" missing <-> property snapshot "hasId" = Bool false)
  /\ (In "payment.email" missing
      <-> property snapshot "hasEmail" = Bool false)
  /\ (In "payment.amount" missing
      <-> property snapshot "hasAmount" <> Str "number")
  /\ (In "payment.notes.event_id" missing
      <-> property snapshot "hasEventId" = Bool false).
Proof.
  intros missing snapshot. subst missing snapshot.
  rewrite missingFields_filter.
  assert (Hflag : forall v, Checks.falsy v = true <-> Bool (truthy v) = Bool false).
  { intros v. rewrite <- falsy_not_truthy.
    destruct (truthy v); simpl; split; congruence. }
  assert (Hreq : forall name, In name Spec.required_fields ->
            (In name (filter (Checks.rejected payment) Spec.required_fields)
             <-> Checks.rejected payment name = true)).
  { intros name Hin. rewrite filter_In. tauto. }
  repeat split.
  - intros H. apply Hreq in H; [| simpl; tauto]. now apply Hflag.
  - intros H. apply Hreq; [simpl; tauto |]. now apply Hflag.
  - intros H. apply Hreq in H; [| simpl; tauto]. now apply Hflag.
  - intros H. apply Hreq; [simpl; tauto |]. now apply Hflag.
  - intros H. apply Hreq in H; [| simpl; tauto].
    unfold Checks.rejected, Spec.field in H. simpl String.eqb in H.
    cbv iota in H. change (property _ "hasAmount")
      with (Str (typeof (opt_member payment "amount"))).
    destruct (opt_member payment "amount"); simpl in *; congruence.
  - intros H. apply Hreq; [simpl; tauto |].
    unfold Checks.rejected, Spec.field. simpl String.eqb. cbv iota.
    change (property _ "hasAmount")
      with (Str (typeof (opt_member payment "amount"))) in H.
    destruct (opt_member payment "amount"); simpl in *; congruence.
  - intros H. apply Hreq in H; [| simpl; tauto]. now apply Hflag.
  - intros H. apply Hreq; [simpl; tauto |]. now apply Hflag.
Qed.

(** ** Normalisation *)

Lemma is_space_lower_char (c : ascii) :
  is_space (lower_char c) = is_space c.
Proof. destruct c as [[] [] [] [] [] [] [] []]; reflexivity. Qed.

Lemma lower_char_idempotent (c : ascii) :
  lower_char (lower_char c) = lower_char c.
Proof. destruct c as [[] [] [] [] [] [] [] []]; reflexivity. Qed.

Lemma toLowerCase_idempotent (s : string) :
  toLowerCase (toLowerCase s) = toLowerCase s.
Proof.
  induction s as [| c s IH]; simpl; [reflexivity |].
  now rewrite lower_char_idempotent, IH.
Qed.

Lemma toLowerCase_trimStart (s : string) :
  toLowerCase (trimStart s) = trimStart (toLowerCase s).
Proof.
  induction s as [| c s IH]; simpl; [reflexivity |].
  rewrite is_space_lower_char.
  destruct (is_space c); [exact IH | reflexivity].
Qed.

Lemma toLowerCase_trimEnd (s : string) :
  toLowerCase (trimEnd s) = trimEnd (toLowerCase s).
Proof.
  induction s as [| c s IH]; simpl; [reflexivity |].
  rewrite <- IH, is_space_lower_char.
  destruct (trimEnd s) as [| d kept]; simpl.
  - destruct (is_space c); reflexivity.
  - reflexivity.
Qed.

Lemma trimStart_fixed (t : string) :
  Spec.not_space (Spec.first_char t) -> trimStart t = t.
Proof.
  destruct t as [| c t]; simpl; [reflexivity |].
  intros ->. reflexivity.
Qed.

Lemma trimEnd_fixed (t : string) :
  Spec.not_space (Spec.last_char t) -> trimEnd t = t.
Proof.
  induction t as [| c t IH]; simpl; [reflexivity |].
  destruct t as [| d t].
  - simpl. intros ->. reflexivity.
  - intros H. rewrite (IH H). reflexivity.
Qed.

Lemma trim_idempotent (s : string) : trim (trim s) = trim s.
Proof.
  destruct (trim_trimmed s) as (l & r & _ & _ & _ & Hf & Hl).
  unfold trim at 1. now rewrite (trimStart_fixed _ Hf), (trimEnd_fixed _ Hl).
Qed.

(** X10.  The normalisation of the e-mail address is idempotent: the
    address the handler stores is left unchanged when it is normalised
    again, so a notification that carries a stored address stores that
    same address. *)
Theorem stored_email_is_stable (what : string) (s t : string) :
  toLowerCase_trim what (Str s) = Normal t ->
  toLowerCase_trim what (Str t) = Normal t.
Proof.
  simpl. intros E. inversion E as [Et]. f_equal.
  assert (Hswap : forall x, toLowerCase (trim x) = trim (toLowerCase x)).
  { intros x. unfold trim.
    now rewrite toLowerCase_trimEnd, toLowerCase_trimStart. }
  now rewrite Hswap, toLowerCase_idempotent, trim_idempotent.
Qed.

Lemma stored_email_is_stable_witness :
  toLowerCase_trim "payment.email" (Str "  User@Example.COM ")
  = Normal "user@example.com"
  /\ toLowerCase_trim "payment.email" (Str "user@example.com")
     = Normal "user@example.com".
Proof.
  split; [reflexivity |].
  apply (stored_email_is_stable "payment.email" "  User@Example.COM ").
  reflexivity.
Defined.

(** * Properties of the variant *)

Ltac pass_variant_gate Hm :=
  unfold Variant.handler;
  replace (Http.method_is _ "POST") with true
    by (unfold Http.method_is; now rewrite Hm);
  simpl negb; cbv iota;
  unfold Eff.try_catch, Variant.try_block.

(** The test of line 91 is passed exactly when the payment is an object
    value whose [id], [email], [amount] and [notes.event_id] are truthy. *)
Lemma variant_missing_false (payment : value) :
  Variant.missing payment = Normal false <->
  nullish payment = false
  /\ truthy (property payment "id") = true
  /\ truthy (property payment "email") = true
  /\ truthy (property payment "amount") = true
  /\ truthy (opt_member (property payment "notes") "event_id") = true.
Proof.
  unfold Variant.missing.
  destruct (nullish payment) eqn:Np.
  - split.
    + destruct payment; simpl in *; discriminate.
    + intros (N & _). discriminate N.
  - rewrite !(member_not_nullish payment) by exact Np.
    destruct (truthy (property payment "id")); simpl;
      [| split; [discriminate | intros (_ & H & _); discriminate H]].
    destruct (truthy (property payment "email")); simpl;
      [| split; [discriminate | intros (_ & _ & H & _); discriminate H]].
    destruct (truthy (property payment "amount")); simpl;
      [| split; [discriminate | intros (_ & _ & _ & H & _); discriminate H]].
    destruct (truthy (opt_member (property payment "notes") "event_id"));
      simpl; split; try discriminate; auto.
    intros (_ & _ & _ & _ & H). discriminate H.
Qed.

Lemma truthy_opt_member (v : value) (k : string) :
  truthy (opt_member v k) = true ->
  nullish v = false /\ opt_member v k = property v k.
Proof.
  unfold opt_member. destruct (nullish v); simpl; [discriminate | auto].
Qed.

Lemma variant_registrationData_run (h : host) (payment : value)
  (n : number) (calls : list Supabase.call) :
  nullish payment = false ->
  nullish (property payment "notes") = false ->
  Variant.registrationData payment n calls
  = (Eff.Continue
       {| event_id := property (property payment "notes") "event_id";
          user_email := property payment "email";
          amount := Num n;
          payment_id := property payment "id";
          status := Str "success" |}, calls).
Proof.
  intros Np Nn. unfold Variant.registrationData, Eff.bind, Eff.eval.
  rewrite !(member_not_nullish payment) by exact Np.
  rewrite (member_not_nullish _ _ Nn). reflexivity.
Qed.

(** The reply of the variant once its insert [c] was answered. *)
Lemma variant_settle (supabase : Supabase.client) (c : Supabase.call) :
  Eff.try_catch
    (fun calls =>
       Eff.bind (Eff.insert supabase c)
         (fun reply =>
            match Supabase.error reply with
            | Some error =>
                Eff.return_
                  (Variant.json 500
                     (Obj [ ("error", Str "Failed to save registration data");
                            ("details", Str (Supabase.message error)) ]))
            | None =>
                Eff.bind (Eff.eval (Variant.first_row (Supabase.data reply)))
                  (fun row =>
                     Eff.bind (Eff.eval (member row "id"))
                       (fun id =>
                          Eff.return_
                            (Variant.json 200
                               (Obj [ ("message",
                                       Str "Payment processed and registration saved successfully");
                                      ("registration_id", id) ]))))
            end) calls)
    Variant.on_catch []
  = match supabase c with
    | Throw e => (Variant.on_catch e, [c])
    | Normal reply =>
        match Supabase.error reply with
        | Some error =>
            (Variant.json 500
               (Obj [ ("error", Str "Failed to save registration data");
                      ("details", Str (Supabase.message error)) ]),
             [c])
        | None =>
            match Variant.first_row (Supabase.data reply) with
            | Throw e => (Variant.on_catch e, [c])
            | Normal row =>
                match member row "id" with
                | Throw e => (Variant.on_catch e, [c])
                | Normal id =>
                    (Variant.json 200
                       (Obj [ ("message",
                               Str "Payment processed and registration saved successfully");
                              ("registration_id", id) ]),
                     [c])
                end
            end
        end
    end.
Proof.
  unfold Eff.try_catch. rewrite bind_insert. simpl app.
  destruct (supabase c) as [reply | e]; [| reflexivity].
  destruct (Supabase.error reply) as [error |]; [reflexivity |].
  destruct (Variant.first_row (Supabase.data reply)) as [row | e];
    [| reflexivity].
  rewrite bind_eval_Normal.
  destruct (member row "id") as [id | e]; reflexivity.
Qed.

(** Every store call the variant makes comes from a POST request in a
    process whose client was created, whose event is [payment.captured]
    and whose payment passed the test of line 91; the call inserts the one
    row built from that payment, and the reply follows from the store's
    answer to it. *)
Lemma variant_call_inv (h : host) (env : process_env)
  (svc : Supabase.service) (req : Http.request) (c : Supabase.call) :
  In c (calls_of (Variant.handler h env svc req)) ->
  let payment := property (Http.body req) "payment" in
  exists u k n,
    Http.method req = Some "POST"
    /\ client_created h env u k
    /\ member (Http.body req) "event" = Normal (Str "payment.captured")
    /\ Variant.missing payment = Normal false
    /\ ToNumber h (property payment "amount") = Normal n
    /\ c = insert_of (variant_registration payment n)
    /\ Variant.handler h env svc req
       = match svc u k c with
         | Throw e => (Variant.on_catch e, [c])
         | Normal reply =>
             match Supabase.error reply with
             | Some error =>
                 (Variant.json 500
                    (Obj [ ("error", Str "Failed to save registration data");
                           ("details", Str (Supabase.message error)) ]),
                  [c])
             | None =>
                 match Variant.first_row (Supabase.data reply) with
                 | Throw e => (Variant.on_catch e, [c])
                 | Normal row =>
                     match member row "id" with
                     | Throw e => (Variant.on_catch e, [c])
                     | Normal id =>
                         (Variant.json 200
                            (Obj [ ("message",
                                    Str "Payment processed and registration saved successfully");
                                   ("registration_id", id) ]),
                          [c])
                     end
                 end
             end
         end.
Proof.
  intros Hin payment.
  remember (Variant.handler h env svc req) as out eqn:E.
  assert (Stop : forall r, out = (r, []) -> False)
    by (intros r ->; destruct Hin).
  unfold Variant.handler in E.
  destruct (Http.method_is req "POST") eqn:Mp;
    [| now elim (Stop _ E)].
  apply method_is_true in Mp. simpl negb in E. cbv iota in E.
  unfold Eff.try_catch, Variant.try_block in E.
  destruct (Supabase.createClient h svc (SUPABASE_URL env)
              (SUPABASE_SERVICE_ROLE_KEY env)) as [supabase | x] eqn:Hclient;
    [| now elim (Stop _ E)].
  apply createClient_Normal in Hclient as (u & k & Hc & ->).
  rewrite bind_eval_Normal in E.
  destruct (member (Http.body req) "event") as [event | e] eqn:He;
    [| now elim (Stop _ E)].
  rewrite bind_eval_Normal, bind_return_if in E.
  destruct (strict_eq_string event "payment.captured") eqn:Hev;
    [| now elim (Stop _ E)].
  apply strict_eq_string_true in Hev. subst event.
  destruct (member_Normal _ _ _ He) as [Nb _].
  simpl negb in E. cbv iota in E.
  rewrite (member_not_nullish _ "payment" Nb), bind_eval_Normal in E.
  fold payment in E.
  destruct (Variant.missing payment) as [[|] | e] eqn:Hv;
    [now elim (Stop _ E) | | now elim (Stop _ E)].
  rewrite bind_eval_Normal, bind_return_if in E. cbv iota in E.
  destruct (proj1 (variant_missing_false payment) Hv)
    as (Np & _ & _ & _ & Hn).
  apply truthy_opt_member in Hn as [Nn _].
  unfold Variant.amountInRupees in E.
  rewrite (member_not_nullish _ "amount" Np) in E.
  destruct (ToNumber h (property payment "amount")) as [n | e] eqn:Ha;
    [| now elim (Stop _ E)].
  rewrite bind_eval_Normal in E.
  unfold Eff.bind at 1 in E.
  rewrite (variant_registrationData_run h payment _ [] Np Nn) in E.
  fold (Eff.try_catch
          (fun calls =>
             Eff.bind
               (Eff.insert (svc u k)
                  {| Supabase.table := "eventsregistrations";
                     Supabase.rows :=
                       [ {| event_id :=
                              property (property payment "notes") "event_id";
                            user_email := property payment "email";
                            amount := Num (div100 n);
                            payment_id := property payment "id";
                            status := Str "success" |} ] |})
               (fun reply =>
                  match Supabase.error reply with
                  | Some error =>
                      Eff.return_
                        (Variant.json 500
                           (Obj [ ("error",
                                   Str "Failed to save registration data");
                                  ("details", Str (Supabase.message error))
                                ]))
                  | None =>
                      Eff.bind
                        (Eff.eval (Variant.first_row (Supabase.data reply)))
                        (fun row =>
                           Eff.bind (Eff.eval (member row "id"))
                             (fun id =>
                                Eff.return_
                                  (Variant.json 200
                                     (Obj [ ("message",
                                             Str "Payment processed and registration saved successfully");
                                            ("registration_id", id) ]))))
                  end) calls)
          Variant.on_catch []) in E.
  rewrite variant_settle in E.
  change {| Supabase.table := "eventsregistrations";
            Supabase.rows := _ |}
    with (insert_of (variant_registration payment n)) in E.
  set (c0 := insert_of (variant_registration payment n)) in *.
  assert (Hcalls : calls_of out = [c0]).
  { rewrite E. unfold calls_of.
    destruct (svc u k c0) as [reply | e]; [| reflexivity].
    destruct (Supabase.error reply) as [error |]; [reflexivity |].
    destruct (Variant.first_row (Supabase.data reply)) as [row | e];
      [| reflexivity].
    destruct (member row "id") as [id | e]; reflexivity. }
  rewrite Hcalls in Hin. destruct Hin as [Ec | []]. subst c.
  exists u, k, n. repeat split; auto; apply Hc.
Qed.

(** X12.  The variant makes no difference between store errors: when its
    insert is answered with an error, whatever the code and the message,
    a uniqueness violation on [payment_id] included, the reply is 500
    with the store's message. *)
Theorem variant_any_store_error_is_500 (h : host) (env : process_env)
  (svc : Supabase.service) (req : Http.request) (c : Supabase.call)
  (u k : string) (reply : Supabase.reply) (error : Supabase.PostgrestError) :
  In c (calls_of (Variant.handler h env svc req)) ->
  configured env u k ->
  svc u k c = Normal reply ->
  Supabase.error reply = Some error ->
  Variant.handler h env svc req
  = (Variant.json 500
       (Obj [ ("error", Str "Failed to save registration data");
              ("details", Str (Supabase.message error)) ]),
     [c]).
Proof.
  intros Hin Hc Hreply Herr.
  destruct (variant_call_inv _ _ _ _ _ Hin)
    as (u' & k' & n & _ & [Hc' _] & _ & _ & _ & _ & ->).
  destruct (configured_unique _ _ _ _ _ Hc Hc') as [<- <-].
  now rewrite Hreply, Herr.
Qed.

Lemma variant_any_store_error_is_500_witness :
  Variant.handler Sample.a_host Sample.configured Sample.rejecting_duplicate
    (Sample.captured (Sample.a_payment 12345))
  = (Variant.json 500
       (Obj [ ("error", Str "Failed to save registration data");
              ("details",
               Str "duplicate key value violates unique constraint eventsregistrations_payment_id_key")
            ]),
     [Sample.variant_insert 12345]).
Proof.
  apply (variant_any_store_error_is_500 Sample.a_host Sample.configured
           Sample.rejecting_duplicate
           (Sample.captured (Sample.a_payment 12345))
           (Sample.variant_insert 12345) Sample.url Sample.key
           {| Supabase.data := None;
              Supabase.error := Some Sample.unique_violation |}
           Sample.unique_violation).
  - vm_compute. left. reflexivity.
  - repeat split; discriminate.
  - reflexivity.
  - reflexivity.
Defined.

(** X13.  When the variant's insert is answered with success and no row
    ([data] is [null] or empty), its read of [data[0]] or [data[0].id]
    throws and [catch] answers 500 with the thrown error's message as
    [details]; the insert was made once. *)
Theorem variant_no_row_is_500 (h : host) (env : process_env)
  (svc : Supabase.service) (req : Http.request) (c : Supabase.call)
  (u k : string) (reply : Supabase.reply) :
  In c (calls_of (Variant.handler h env svc req)) ->
  configured env u k ->
  svc u k c = Normal reply ->
  Supabase.error reply = None ->
  Supabase.data reply = None \/ Supabase.data reply = Some [] ->
  exists details,
    Variant.handler h env svc req
    = (Variant.json 500
         (Obj [ ("error",
                 Str "Internal server error while processing webhook");
                ("details", Str details) ]),
       [c]).
Proof.
  intros Hin Hc Hreply Herr Hdata.
  destruct (variant_call_inv _ _ _ _ _ Hin)
    as (u' & k' & n & _ & [Hc' _] & _ & _ & _ & _ & ->).
  destruct (configured_unique _ _ _ _ _ Hc Hc') as [<- <-].
  rewrite Hreply, Herr.
  destruct Hdata as [-> | ->]; eexists; reflexivity.
Qed.

Lemma variant_no_row_is_500_witness :
  exists details,
    Variant.handler Sample.a_host Sample.configured Sample.silent
      (Sample.captured (Sample.a_payment 12345))
    = (Variant.json 500
         (Obj [ ("error",
                 Str "Internal server error while processing webhook");
                ("details", Str details) ]),
       [Sample.variant_insert 12345]).
Proof.
  apply (variant_no_row_is_500 Sample.a_host Sample.configured Sample.silent
           (Sample.captured (Sample.a_payment 12345))
           (Sample.variant_insert 12345) Sample.url Sample.key
           {| Supabase.data := Some []; Supabase.error := None |}).
  - vm_compute. left. reflexivity.
  - repeat split; discriminate.
  - reflexivity.
  - reflexivity.
  - right. reflexivity.
Defined.

(** X14.  A [payment.captured] notification without a payment object
    makes the variant's read of [payment.id] throw: where the main handler
    answers 400, the variant answers the 500 of [catch]; the store is not
    called. *)
Theorem variant_absent_payment_is_500 (h : host) (env : process_env)
  (svc : Supabase.service) (req : Http.request) (u k : string) :
  Http.method req = Some "POST" ->
  configured env u k ->
  member (Http.body req) "event" = Normal (Str "payment.captured") ->
  nullish (property (Http.body req) "payment") = true ->
  exists details,
    Variant.handler h env svc req
    = (Variant.json 500
         (Obj [ ("error",
                 Str "Internal server error while processing webhook");
                ("details", Str details) ]),
       []).
Proof.
  intros Hm Hc He Hn.
  destruct (member_Normal _ _ _ He) as [Nb _].
  pass_variant_gate Hm.
  create_client h u Hc Hurl; [eexists; reflexivity |].
  rewrite He, bind_eval_Normal, bind_return_if. simpl negb. cbv iota.
  rewrite (member_not_nullish _ "payment" Nb), bind_eval_Normal.
  destruct (property (Http.body req) "payment"); try discriminate Hn;
    eexists; reflexivity.
Qed.

Lemma variant_absent_payment_is_500_witness :
  exists details,
    Variant.handler Sample.a_host Sample.configured Sample.accepting
      (Sample.captured Null)
    = (Variant.json 500
         (Obj [ ("error",
                 Str "Internal server error while processing webhook");
                ("details", Str details) ]),
       []).
Proof.
  apply (variant_absent_payment_is_500 Sample.a_host Sample.configured
           Sample.accepting (Sample.captured Null) Sample.url Sample.key).
  - reflexivity.
  - repeat split; discriminate.
  - reflexivity.
  - reflexivity.
Defined.

(** X15.  The row the variant inserts is not normalised: whenever it makes
    its store call, the row holds the notification's [email] as received
    and the amount, converted to a number, divided by 100 (in binary64)
    without rounding, beside the [event_id] and [id]; that call is the
    only one. *)
Theorem variant_row_is_not_normalised (h : host) (env : process_env)
  (svc : Supabase.service) (req : Http.request) (c : Supabase.call) :
  let payment := property (Http.body req) "payment" in
  In c (calls_of (Variant.handler h env svc req)) ->
  exists r n,
    c = insert_of r
    /\ calls_of (Variant.handler h env svc req) = [c]
    /\ user_email r = property payment "email"
    /\ ToNumber h (property payment "amount") = Normal n
    /\ amount r = Num (div100 n)
    /\ event_id r = property (property payment "notes") "event_id"
    /\ payment_id r = property payment "id"
    /\ status r = Str "success".
Proof.
  intros payment Hin.
  destruct (variant_call_inv _ _ _ _ _ Hin)
    as (u & k & n & _ & _ & _ & _ & Ha & Ec & E).
  exists (variant_registration payment n), n.
  split; [exact Ec |]. split; [| repeat split; exact Ha].
  rewrite E. unfold calls_of.
  destruct (svc u k c) as [reply | e]; [| reflexivity].
  destruct (Supabase.error reply) as [error |]; [reflexivity |].
  destruct (Variant.first_row (Supabase.data reply)) as [row | e];
    [| reflexivity].
  destruct (member row "id") as [id | e]; reflexivity.
Qed.

Lemma variant_row_is_not_normalised_witness :
  exists r,
    Sample.variant_insert 12345 = insert_of r
    /\ calls_of (Variant.handler Sample.a_host Sample.configured
                   Sample.accepting
                   (Sample.captured (Sample.a_payment 12345)))
       = [insert_of r]
    /\ user_email r = Str "  User@Example.COM "
    /\ amount r = Num (Fin (8687021468732621 # 70368744177664)).
Proof.
  destruct (variant_row_is_not_normalised Sample.a_host Sample.configured
              Sample.accepting (Sample.captured (Sample.a_payment 12345))
              (Sample.variant_insert 12345))
    as (r & n & Ec & Hcalls & Hemail & Hn & Hamount & _).
  - vm_compute. left. reflexivity.
  - exists r. split; [exact Ec |]. rewrite Ec in Hcalls.
    split; [exact Hcalls |]. split; [exact Hemail |].
    rewrite Hamount. inversion Hn. vm_compute. reflexivity.
Defined.

Lemma variant_missing_total (payment : value) :
  nullish payment = false -> exists b, Variant.missing payment = Normal b.
Proof.
  intros Np. unfold Variant.missing.
  rewrite !(member_not_nullish payment) by exact Np.
  destruct (truthy (property payment "id")); simpl; eauto.
  destruct (truthy (property payment "email")); simpl; eauto.
  destruct (truthy (property payment "amount")); simpl; eauto.
Qed.

(** X16.  On a payment whose amount is a number other than zero (and not
    NaN) the two validations agree: the variant's test passes exactly when
    the main handler's four checks push no name. *)
Theorem validations_agree_on_nonzero_amount (payment : value) (n : number) :
  property payment "amount" = Num n ->
  truthy (Num n) = true ->
  Variant.missing payment = Normal false
  <-> PaymentWebhook.missingFields payment = [].
Proof.
  intros Ha Hn. split.
  - intros Hv. apply variant_missing_false in Hv as (Np & Hi & Hm & _ & He).
    destruct (truthy_opt_member _ _ He) as [Nn Hsame].
    rewrite Hsame in He.
    unfold PaymentWebhook.missingFields, opt_member.
    rewrite Np. cbv iota. rewrite Nn. cbv iota.
    now rewrite Hi, Hm, Ha, He.
  - intros Hv.
    destruct (missingFields_nil _ Hv) as (Np & Hi & Hm & _ & Nn & He).
    apply variant_missing_false. unfold opt_member.
    rewrite Nn, Ha. repeat split; assumption.
Qed.

Lemma validations_agree_on_nonzero_amount_witness :
  (Variant.missing (Sample.a_payment 12345) = Normal false
   <-> PaymentWebhook.missingFields (Sample.a_payment 12345) = [])
  /\ Variant.missing (Sample.a_payment 12345) = Normal false.
Proof.
  split; [| reflexivity].
  apply (validations_agree_on_nonzero_amount (Sample.a_payment 12345)
           (Fin (inject_Z 12345))); reflexivity.
Defined.

(** X17.  When the payment of a [payment.captured] notification, POSTed
    to a process whose store client is created, is an object and one of
    [id], [email], [amount] and [notes.event_id] is falsy, the variant
    answers 400 with one fixed message that does not say which, and makes
    no store call. *)
Theorem variant_rejects_without_naming (h : host) (env : process_env)
  (svc : Supabase.service) (req : Http.request) (u k : string) :
  let payment := property (Http.body req) "payment" in
  Http.method req = Some "POST" ->
  client_created h env u k ->
  member (Http.body req) "event" = Normal (Str "payment.captured") ->
  nullish payment = false ->
  truthy (property payment "id") = false
  \/ truthy (property payment "email") = false
  \/ truthy (property payment "amount") = false
  \/ truthy (opt_member (property payment "notes") "event_id") = false ->
  Variant.handler h env svc req
  = (Variant.json 400
       (Obj [ ("error",
               Str "Missing required payment data: id, email, amount, or notes.event_id")
            ]),
     []).
Proof.
  intros payment Hm Hc He Np Hfalsy.
  destruct (member_Normal _ _ _ He) as [Nb _].
  destruct (variant_missing_total payment Np) as [b Hb].
  assert (b = true) as ->.
  { destruct b; [reflexivity | exfalso].
    apply variant_missing_false in Hb as (_ & Hi & Hmail & Ha & Hev).
    destruct Hfalsy as [H | [H | [H | H]]]; congruence. }
  pass_variant_gate Hm.
  rewrite (createClient_configured _ _ _ _ _ Hc), bind_eval_Normal.
  rewrite He, bind_eval_Normal, bind_return_if. simpl negb. cbv iota.
  rewrite (member_not_nullish _ "payment" Nb), bind_eval_Normal.
  fold payment. rewrite Hb, bind_eval_Normal, bind_return_if. reflexivity.
Qed.

Lemma variant_rejects_without_naming_witness :
  Variant.handler Sample.a_host Sample.configured Sample.accepting
    (Sample.captured
       (Sample.payment_of (Str "pay_1") (Str "") (Sample.int 100) Null))
  = (Variant.json 400
       (Obj [ ("error",
               Str "Missing required payment data: id, email, amount, or notes.event_id")
            ]),
     []).
Proof.
  apply (variant_rejects_without_naming Sample.a_host Sample.configured
           Sample.accepting
           (Sample.captured
              (Sample.payment_of (Str "pay_1") (Str "") (Sample.int 100)
                 Null))
           Sample.url Sample.key).
  - reflexivity.
  - split; [repeat split; discriminate | reflexivity].
  - reflexivity.
  - reflexivity.
  - right. left. reflexivity.
Defined.

(** ** Every reply of the variant *)

Lemma variant_json_structured (c : Z) (v : value) :
  In c [200; 400; 405; 500] -> structured [] (Variant.json c v).
Proof.
  intros Hc. split; [reflexivity |]. split; [exact Hc |].
  eexists. reflexivity.
Qed.

Lemma variant_registrationData_continues (payment : value) (n : number)
  (calls : list Supabase.call) :
  match fst (Variant.registrationData payment n calls) with
  | Eff.Return _ => False
  | _ => True
  end
  /\ snd (Variant.registrationData payment n calls) = calls.
Proof.
  unfold Variant.registrationData.
  destruct (member payment "notes") as [notes | e]; simpl; auto.
  rewrite bind_eval_Normal.
  destruct (member notes "event_id") as [ev | e]; simpl; auto.
  rewrite bind_eval_Normal.
  destruct (member payment "email") as [email | e]; simpl; auto.
  rewrite bind_eval_Normal.
  destruct (member payment "id") as [id | e]; simpl; auto.
Qed.

Lemma variant_try_block_behaviour (h : host) (env : process_env)
  (svc : Supabase.service) (req : Http.request) :
  exists s calls,
    Variant.try_block h env svc req [] = (s, calls)
    /\ match s with
       | Eff.Return r => structured [] r
       | _ => True
       end
    /\ (List.length calls <= 1)%nat.
Proof.
  assert (Hjson : forall c v (calls : list Supabase.call),
            In c [200; 400; 405; 500] -> (List.length calls <= 1)%nat ->
            exists s calls',
              (@Eff.Return Empty_set (Variant.json c v), calls) = (s, calls')
              /\ match s with
                 | Eff.Return r => structured [] r
                 | _ => True
                 end
              /\ (List.length calls' <= 1)%nat).
  { intros c v calls Hc Hl. do 2 eexists. split; [reflexivity |].
    split; [now apply variant_json_structured | exact Hl]. }
  assert (Hraise : forall e (calls : list Supabase.call),
            (List.length calls <= 1)%nat ->
            exists s calls',
              (@Eff.Raise Empty_set e, calls) = (s, calls')
              /\ match s with
                 | Eff.Return r => structured [] r
                 | _ => True
                 end
              /\ (List.length calls' <= 1)%nat).
  { intros e calls Hl. do 2 eexists. split; [reflexivity |]. auto. }
  unfold Variant.try_block.
  destruct (Supabase.createClient h svc _ _) as [supabase | e];
    [rewrite bind_eval_Normal | apply Hraise; simpl; lia].
  destruct (member (Http.body req) "event") as [event | e];
    [rewrite bind_eval_Normal | apply Hraise; simpl; lia].
  rewrite bind_return_if.
  destruct (negb _); [apply Hjson; simpl; [tauto | lia] |].
  destruct (member (Http.body req) "payment") as [payment | e];
    [rewrite bind_eval_Normal | apply Hraise; simpl; lia].
  destruct (Variant.missing payment) as [missing | e];
    [rewrite bind_eval_Normal | apply Hraise; simpl; lia].
  rewrite bind_return_if.
  destruct missing; [apply Hjson; simpl; [tauto | lia] |].
  destruct (Variant.amountInRupees h payment) as [n | e];
    [rewrite bind_eval_Normal | apply Hraise; simpl; lia].
  unfold Eff.bind at 1.
  destruct (variant_registrationData_continues payment n []) as [Hrow Hsame].
  destruct (Variant.registrationData payment n [])
    as [[row | r | e] calls]; simpl in Hrow, Hsame; subst calls;
    [| contradiction | apply Hraise; simpl; lia].
  rewrite bind_insert. simpl app.
  destruct (supabase _) as [reply | e]; [| apply Hraise; simpl; lia].
  destruct (Supabase.error reply) as [error |];
    [apply Hjson; simpl; [tauto | lia] |].
  destruct (Variant.first_row (Supabase.data reply)) as [row' | e];
    [rewrite bind_eval_Normal | apply Hraise; simpl; lia].
  destruct (member row' "id") as [id | e];
    [rewrite bind_eval_Normal | apply Hraise; simpl; lia].
  apply Hjson; simpl; [tauto | lia].
Qed.

(** X18.  Whatever the request, the process environment and the store, the
    variant answers with a JSON body and one of the statuses 200, 400, 405
    and 500, sets no header, and makes at most one store call. *)
Theorem variant_every_reply_is_structured (h : host) (env : process_env)
  (svc : Supabase.service) (req : Http.request) :
  let out := Variant.handler h env svc req in
  Http.headers (response_of out) = []
  /\ In (Http.status (response_of out)) [200; 400; 405; 500]
  /\ (exists v, Http.payload (response_of out) = Http.Json v)
  /\ (List.length (calls_of out) <= 1)%nat.
Proof.
  intros out. subst out.
  assert (H : structured [] (response_of (Variant.handler h env svc req))
              /\ (List.length (calls_of (Variant.handler h env svc req))
                  <= 1)%nat).
  { unfold response_of, calls_of, Variant.handler.
    destruct (negb _);
      [split; [apply variant_json_structured; simpl; tauto | simpl; lia] |].
    destruct (variant_try_block_behaviour h env svc req)
      as (s & calls & E & Hwb & Hlen).
    unfold Eff.try_catch. rewrite E.
    destruct s as [[] | r | e]; simpl; split; auto.
    apply variant_json_structured. simpl. tauto. }
  destruct H as [(Hh & Hs & Hv) Hlen]. auto.
Qed.

(** * When the client cannot be created *)

(** X19.  When both credentials are set but [createClient] throws on the
    URL, every POST is answered by [catch]: 500 with the thrown error's
    message (or [Unknown error occurred]), whatever the body, and the
    store is never called. *)
Theorem client_not_created_is_500 (h : host) (env : process_env)
  (svc : Supabase.service) (req : Http.request) (u k : string) (e : exn) :
  Http.method req = Some "POST" ->
  configured env u k ->
  supabaseUrl_error h u = Some e ->
  PaymentWebhook.handler h env svc req
  = (PaymentWebhook.json 500
       (Obj [ ("error",
               Str "Internal server error while processing webhook");
              ("details",
               Str match e with
                   | JsError message => message
                   | Thrown _ => "Unknown error occurred"
                   end) ]),
     []).
Proof.
  intros Hm Hc Hurl.
  pass_method_gate Hm. pass_configuration_gate Hc.
  rewrite (createClient_rejects _ _ _ _ _ _ Hc Hurl), bind_eval_Throw.
  reflexivity.
Qed.

Lemma client_not_created_is_500_witness :
  PaymentWebhook.handler Sample.a_strict_host Sample.misconfigured
    Sample.accepting Sample.failed
  = (PaymentWebhook.json 500
       (Obj [ ("error",
               Str "Internal server error while processing webhook");
              ("details",
               Str "Invalid supabaseUrl: Must be a valid HTTP or HTTPS URL.")
            ]),
     []).
Proof.
  apply (client_not_created_is_500 Sample.a_strict_host Sample.misconfigured
           Sample.accepting Sample.failed
           "project.supabase.co" "service-role-key"
           (JsError "Invalid supabaseUrl: Must be a valid HTTP or HTTPS URL.")).
  - reflexivity.
  - repeat split; discriminate.
  - reflexivity.
Defined.

(** An event that is an object with its own [toString] key cannot be put
    into the message of line 128: the template literal throws and [catch]
    answers. *)
Example object_event_is_caught :
  PaymentWebhook.handler Sample.a_host Sample.configured Sample.accepting
    {| Http.method := Some "POST";
       Http.body :=
         Obj [ ("event", Obj [ ("toString", Str "payment.captured") ]) ] |}
  = (PaymentWebhook.json 500
       (Obj [ ("error",
               Str "Internal server error while processing webhook");
              ("details", Str "Cannot convert object to primitive value") ]),
     []).
Proof. reflexivity. Qed.

(** An event that is a plain object is echoed as [[object Object]]. *)
Example plain_object_event_is_ignored :
  PaymentWebhook.handler Sample.a_host Sample.configured Sample.accepting
    {| Http.method := Some "POST";
       Http.body := Obj [ ("event", Obj [ ("name", Str "x") ]) ] |}
  = (PaymentWebhook.json 200
       (Obj [ ("message",
               Str "Event ignored. Only payment.captured events are processed. Received: [object Object]")
            ]),
     []).
Proof. reflexivity. Qed.

(** * Quotients in binary64 *)

(** 1/100 is not a binary64 value; the quotient is the nearest one. *)
Example one_hundredth :
  div100 (Fin 1) = Fin (5764607523034235 # 576460752303423488).
Proof. vm_compute. reflexivity. Qed.

(** Below the normal range the quotient is rounded at the least
    exponent: the smallest normal number divided by 100. *)
Example subnormal_quotient :
  div100 (Fin (1 # Z.to_pos (2 ^ 1022)))
  = Fin (45035996273705 # Z.to_pos (2 ^ 1074)).
Proof. vm_compute. reflexivity. Qed.

(** An exact quotient is kept: 12350/100 is 123.5. *)
Example exact_quotient :
  exists q, div100 (Fin (inject_Z 12350)) = Fin q /\ (q == 247 # 2)%Q.
Proof. eexists. split; [vm_compute; reflexivity | reflexivity]. Qed.
